(** * create-icons.py: the icon generator, embedded and verified

    The script prepares the directory [public/icons], opens the base image
    [public/icon-192.png] and writes five square downscales of it.  The
    embedding below follows the script statement by statement.  Its effects
    (directory creation, file reads and writes, printing) act on an explicit
    [world]; an uncaught exception aborts the run and leaves the world as
    it was when the exception was raised.

    Modelling choices:
    - the working directory is the root of a tree of directories and files;
      a directory is a finite map from entry names to nodes;
    - the operating system raises the shape errors of POSIX (a regular file
      where a directory is needed, a directory where a file is needed, a
      missing entry); permissions, quotas and a full disk are not modelled;
    - Pillow is an interface ([Imaging]): decoding, Lanczos resampling and
      PNG encoding are functions of their arguments, and the only law used
      is that [resize] returns a bitmap of the requested size;
    - [Image.open] reads the header of the file only; the pixel data is
      read when the image is first used, which in the script is the
      first [resize];
    - [Image.save] opens its file for writing before it encodes, so an
      image the PNG encoder refuses leaves a file that was there empty,
      and a file that was not there is removed again;
    - [print] raises when the encoding of standard output cannot
      represent the line;
    - a run records what it did in a [trace], so that the order of its
      effects and the bitmaps they carried can be stated. *)

From Stdlib Require Import ZArith Ascii String DecimalString.
From stdpp Require Import gmap strings list fin_maps.

Local Open Scope Z_scope.
Local Open Scope string_scope.

(** ** The file system *)

Module FS.

(** A node of the tree rooted at the working directory. *)
#[local] Set Warnings "-register-all".
Inductive node : Type :=
  | File (content : list Byte.byte)
  | Dir (entries : gmap string node).

(** Python exceptions the script can meet. *)
Inductive exn : Type :=
  | FileExistsError
  | NotADirectoryError
  | FileNotFoundError
  | IsADirectoryError
  | UnidentifiedImageError
  | DecompressionBombError
  | OSError
  | UnicodeEncodeError.

(** Result of resolving a path. *)
Inductive found : Type :=
  | Found (n : node)
  | ENOENT
  | ENOTDIR.

(** Characters of a path up to the first separator, and the rest. *)
Fixpoint split_path_aux (acc : string) (s : string) : list string :=
  match s with
  | EmptyString => if decide (acc = "") then [] else [acc]
  | String c s' =>
      if decide (c = "/"%char)
      then (if decide (acc = "") then [] else [acc]) ++ split_path_aux "" s'
      else split_path_aux (acc ++ String c "") s'
  end.

(** The components of a relative path; empty components are dropped, as
    the kernel does for repeated separators. *)
Definition split_path (s : string) : list string := split_path_aux "" s.

(** Path resolution, component by component. *)
Fixpoint stat (p : list string) (n : node) : found :=
  match p with
  | [] => Found n
  | c :: p' =>
      match n with
      | File _ => ENOTDIR
      | Dir es =>
          match es !! c with
          | Some n' => stat p' n'
          | None => ENOENT
          end
      end
  end.

(** A chain of fresh, empty directories for the components [p]. *)
Fixpoint fresh_dirs (p : list string) : node :=
  match p with
  | [] => Dir ∅
  | c :: p' => Dir {[ c := fresh_dirs p' ]}
  end.

(** [os.makedirs(p, exist_ok)]: every missing directory along [p] is
    created.  A regular file on the way raises [NotADirectoryError]; an
    existing leaf raises [FileExistsError] unless it is a directory and
    [exist_ok] holds. *)
Fixpoint makedirs (p : list string) (exist_ok : bool) (n : node)
  : exn + node :=
  match p with
  | [] =>
      match n with
      | Dir _ => if exist_ok then inr n else inl FileExistsError
      | File _ => inl FileExistsError
      end
  | c :: p' =>
      match n with
      | File _ => inl NotADirectoryError
      | Dir es =>
          match es !! c with
          | Some n' =>
              match makedirs p' exist_ok n' with
              | inr n'' => inr (Dir (<[c := n'']> es))
              | inl e => inl e
              end
          | None => inr (Dir (<[c := fresh_dirs p']> es))
          end
      end
  end.

(** Reading a whole file, as [open(p, 'rb').read()]. *)
Definition read (p : list string) (n : node) : exn + list Byte.byte :=
  match stat p n with
  | Found (File bs) => inr bs
  | Found (Dir _) => inl IsADirectoryError
  | ENOENT => inl FileNotFoundError
  | ENOTDIR => inl NotADirectoryError
  end.

(** Creating or truncating a file and writing [bs] to it, as
    [open(p, 'w+b')] followed by the write. *)
Fixpoint write (p : list string) (bs : list Byte.byte) (n : node)
  : exn + node :=
  match p with
  | [] =>
      match n with
      | File _ => inr (File bs)
      | Dir _ => inl IsADirectoryError
      end
  | c :: p' =>
      match n with
      | File _ => inl NotADirectoryError
      | Dir es =>
          match es !! c with
          | Some n' =>
              match write p' bs n' with
              | inr n'' => inr (Dir (<[c := n'']> es))
              | inl e => inl e
              end
          | None =>
              match p' with
              | [] => inr (Dir (<[c := File bs]> es))
              | _ :: _ => inl FileNotFoundError
              end
          end
      end
  end.

(** The content of the regular file at [p], if there is one. *)
Definition file_at (p : list string) (n : node) : option (list Byte.byte) :=
  match stat p n with
  | Found (File bs) => Some bs
  | _ => None
  end.

(** The entries of the directory at [p], if there is one. *)
Definition dir_at (p : list string) (n : node) : option (gmap string node) :=
  match stat p n with
  | Found (Dir es) => Some es
  | _ => None
  end.

(** The tree [n] with the node at [p] replaced by [x]; [n] itself when
    nothing is at [p]. *)
Fixpoint put (p : list string) (x : node) (n : node) : node :=
  match p with
  | [] => x
  | c :: p' =>
      match n with
      | File _ => n
      | Dir es =>
          match es !! c with
          | Some n' => Dir (<[c := put p' x n']> es)
          | None => n
          end
      end
  end.

(** [q] with the prefix [p] removed, when [p] is a prefix of [q]. *)
Fixpoint strip_prefix (p q : list string) : option (list string) :=
  match p with
  | [] => Some q
  | a :: p' =>
      match q with
      | [] => None
      | b :: q' => if decide (a = b) then strip_prefix p' q' else None
      end
  end.

End FS.

(** ** Pillow, as an interface *)

(** The resampling filters of [Image.Resampling]. *)
Inductive Resampling : Type :=
  | NEAREST | BOX | BILINEAR | HAMMING | BICUBIC | LANCZOS.

(** What the script uses of Pillow.  An [image] is a Pillow [Image]
    object.  [decode] is the work of [Image.open] on the bytes of a file:
    it reads the header, and answers [None] when it refuses the file, with
    [refusal] the exception it then raises ([UnidentifiedImageError], or
    [DecompressionBombError] for a header that announces too many
    pixels).  The pixel data of an opened image is read when it is first
    needed; [loadable] says whether that succeeds.  [resize] is
    [Image.resize], which returns a new image and leaves its argument
    alone.  [encodable] says whether the PNG encoder accepts the image
    (it does not for every mode), and [encode_png] is what it writes when
    it does. *)
Class Imaging : Type := {
  image : Type;
  size : image -> Z * Z;
  decode : list Byte.byte -> option image;
  refusal : list Byte.byte -> FS.exn;
  loadable : image -> bool;
  resize : image -> Z * Z -> Resampling -> image;
  encodable : image -> bool;
  encode_png : image -> list Byte.byte;
  resize_size : forall im w h f,
    0 < w -> 0 < h -> size (resize im (w, h) f) = (w, h)
}.

(** ** Standard output *)

(** The encoding of [sys.stdout]: one that has every character, or one
    that has the 128 characters of ASCII only. *)
Inductive encoding : Type :=
  | UTF8
  | ASCII.

(** All bytes of the string are below 128.  A string holds the UTF-8
    bytes of its text, so this says that the text is plain ASCII. *)
Fixpoint is_ascii (line : string) : bool :=
  match line with
  | EmptyString => true
  | String c rest => (nat_of_ascii c <? 128)%nat && is_ascii rest
  end.

Definition can_encode (enc : encoding) (line : string) : bool :=
  match enc with
  | UTF8 => true
  | ASCII => is_ascii line
  end.

(** ** Worlds, runs and exceptions *)

(** The statement that raised. *)
Inductive step : Type :=
  | AtMakedirs (path : string)
  | AtOpen (path : string)
  | AtResize (wh : Z * Z)
  | AtSave (path : string)
  | AtPrint (line : string).

(** The outcome of a statement: a value, or an uncaught exception. *)
Inductive result (A : Type) : Type :=
  | Ok (a : A)
  | Raise (s : step) (e : FS.exn).
Arguments Ok {A} a.
Arguments Raise {A} s e.

Section Script.
Context `{PIL : Imaging}.

(** The effects a run has completed, oldest first. *)
Inductive event : Type :=
  | EMakedirs (path : string)
  | EOpen (path : string)
  | EResize (src : image) (wh : Z * Z) (f : Resampling)
  | ESave (path : string) (im : image)
  | EPrint (line : string).

(** Everything the process can see or touch when the script starts.
    [argv] and [environ] are there so that not reading them can be
    stated.  [stdout_encoding] is the encoding the interpreter gave to
    standard output before the first line of the script. *)
Record world : Type := World {
  fs : FS.node;
  stdout : list string;
  trace : list event;
  argv : list string;
  environ : gmap string string;
  stdout_encoding : encoding
}.

Definition set_fs (n : FS.node) (w : world) : world :=
  World n (stdout w) (trace w) (argv w) (environ w) (stdout_encoding w).

Definition log (e : event) (w : world) : world :=
  World (fs w) (stdout w) (trace w ++ [e]) (argv w) (environ w)
        (stdout_encoding w).

Definition emit (line : string) (w : world) : world :=
  World (fs w) (stdout w ++ [line]) (trace w) (argv w) (environ w)
        (stdout_encoding w).

(** A statement: a world in, an outcome and a world out. *)
Definition M (A : Type) : Type := world -> result A * world.

Definition ret {A} (a : A) : M A := fun w => (Ok a, w).

(** Sequencing; an exception skips everything after it. *)
Definition bind {A B} (m : M A) (k : A -> M B) : M B :=
  fun w =>
    match m w with
    | (Ok a, w') => k a w'
    | (Raise s e, w') => (Raise s e, w')
    end.

#[local] Notation "x <- m ;; k" := (bind m (fun x => k))
  (at level 100, m at next level, right associativity, only parsing).
#[local] Notation "m ;;; k" := (bind m (fun _ => k))
  (at level 100, right associativity, only parsing).

(** [for x in xs: body(x)] *)
Fixpoint for_each {A} (xs : list A) (body : A -> M unit) : M unit :=
  match xs with
  | [] => ret tt
  | x :: xs' => body x ;;; for_each xs' body
  end.

(** [os.makedirs(path, exist_ok=exist_ok)] *)
Definition os_makedirs (path : string) (exist_ok : bool) : M unit :=
  fun w =>
    match FS.makedirs (FS.split_path path) exist_ok (fs w) with
    | inr n => (Ok tt, log (EMakedirs path) (set_fs n w))
    | inl e => (Raise (AtMakedirs path) e, w)
    end.

(** [Image.open(path)]: the file is read and its header examined; the
    pixel data is left for later. *)
Definition Image_open (path : string) : M image :=
  fun w =>
    match FS.read (FS.split_path path) (fs w) with
    | inr bs =>
        match decode bs with
        | Some im => (Ok im, log (EOpen path) w)
        | None => (Raise (AtOpen path) (refusal bs), w)
        end
    | inl e => (Raise (AtOpen path) e, w)
    end.

(** [im.resize(wh, f)]: the pixel data of [im] is loaded if it was not,
    which raises [OSError] when the data is damaged. *)
Definition Image_resize (im : image) (wh : Z * Z) (f : Resampling) : M image :=
  fun w =>
    if loadable im
    then (Ok (resize im wh f), log (EResize im wh f) w)
    else (Raise (AtResize wh) FS.OSError, w).

(** [im.save(path)] for a path that ends in [.png]: the file is opened
    with mode ['w+b'], which creates or empties it, and then the encoder
    runs.  When the encoder refuses the image, [OSError] is raised; a file
    the call created is removed again, a file that was there stays
    empty. *)
Definition Image_save (im : image) (path : string) : M unit :=
  fun w =>
    match FS.write (FS.split_path path) [] (fs w) with
    | inl e => (Raise (AtSave path) e, w)
    | inr opened =>
        if encodable im
        then
          match FS.write (FS.split_path path) (encode_png im) opened with
          | inr n => (Ok tt, log (ESave path im) (set_fs n w))
          | inl e => (Raise (AtSave path) e, set_fs opened w)
          end
        else
          (Raise (AtSave path) FS.OSError,
           match FS.file_at (FS.split_path path) (fs w) with
           | Some _ => set_fs opened w
           | None => w
           end)
    end.

(** [print(line)]: the line is encoded for standard output, which raises
    [UnicodeEncodeError] when the encoding lacks one of its characters. *)
Definition print (line : string) : M unit :=
  fun w =>
    if can_encode (stdout_encoding w) line
    then (Ok tt, log (EPrint line) (emit line w))
    else (Raise (AtPrint line) FS.UnicodeEncodeError, w).

(** [str(n)] for an integer *)
Definition str (n : Z) : string := NilZero.string_of_int (Z.to_int n).

(** ** The script *)

Definition sizes : list Z := [16; 32; 48; 128].

(** The body of the loop over [sizes]. *)
Definition loop_body (base_icon : image) (size : Z) : M unit :=
  resized <- Image_resize base_icon (size, size) LANCZOS ;;
  Image_save resized ("public/icons/icon-" ++ str size ++ ".png") ;;;
  print ("✓ Created public/icons/icon-" ++ str size ++ ".png").

(** create-icons.py, top to bottom. *)
Definition main : M unit :=
  os_makedirs "public/icons" true ;;;
  base_icon <- Image_open "public/icon-192.png" ;;
  for_each sizes (loop_body base_icon) ;;;
  resized_64 <- Image_resize base_icon (64, 64) LANCZOS ;;
  Image_save resized_64 "public/icons/icon-64.png" ;;;
  print "✓ Created public/icons/icon-64.png".

(** ** Names used to state what a run does *)

(** The five sizes the specification lists, in its order. *)
Definition all_sizes : list Z := [16; 32; 48; 64; 128].

(** The order in which the script reaches them: the loop, then 64. *)
Definition order : list Z := sizes ++ [64].

Definition icons_dir : list string := ["public"; "icons"].
Definition base_path : string := "public/icon-192.png".
Definition icon_name (size : Z) : string := "icon-" ++ str size ++ ".png".
Definition icon_path (size : Z) : string :=
  "public/icons/icon-" ++ str size ++ ".png".
Definition created (size : Z) : string :=
  "✓ Created public/icons/icon-" ++ str size ++ ".png".

(** The bitmap the script derives from [base_icon] for [size]. *)
Definition icon (base_icon : image) (size : Z) : image :=
  resize base_icon (size, size) LANCZOS.

(** The three effects of one completed resize-and-save. *)
Definition step_events (base_icon : image) (size : Z) : list event :=
  [EResize base_icon (size, size) LANCZOS;
   ESave (icon_path size) (icon base_icon size);
   EPrint (created size)].

(** A save cannot open its file when a directory has the name of the
    icon. *)
Definition blocked (d : gmap string FS.node) (size : Z) : bool :=
  match d !! icon_name size with
  | Some (FS.Dir _) => true
  | _ => false
  end.

(** The icons directory after the icon of [size] has been saved. *)
Definition store (base_icon : image) (d : gmap string FS.node) (size : Z)
  : gmap string FS.node :=
  <[icon_name size := FS.File (encode_png (icon base_icon size))]> d.

(** The icons directory after the encoder refused the icon of [size]: a
    file that was there is empty, nothing else has changed. *)
Definition emptied (d : gmap string FS.node) (size : Z)
  : gmap string FS.node :=
  match d !! icon_name size with
  | Some (FS.File _) => <[icon_name size := FS.File []]> d
  | _ => d
  end.

(** The world after the icons of [done] have been saved and confirmed,
    one after the other, into the icons directory [d]. *)
Definition after (base_icon : image) (done : list Z)
    (d : gmap string FS.node) (w : world) : world :=
  World (FS.put icons_dir (FS.Dir (foldl (store base_icon) d done)) (fs w))
        (stdout w ++ map created done)
        (trace w ++ flat_map (step_events base_icon) done)
        (argv w) (environ w) (stdout_encoding w).

(** Why a turn of the loop stops the run: the pixel data of the base
    image does not load, the file cannot be opened, the encoder refuses
    the icon, or the confirmation cannot be printed. *)
Inductive stop : Type :=
  | NoPixels
  | NameTaken
  | NoEncoder
  | NoGlyph.

(** The first thing that goes wrong in the turn for [size], if any. *)
Definition check (base_icon : image) (enc : encoding)
    (d : gmap string FS.node) (size : Z) : option stop :=
  if negb (loadable base_icon) then Some NoPixels
  else if blocked d size then Some NameTaken
  else if negb (encodable (icon base_icon size)) then Some NoEncoder
  else if negb (can_encode enc (created size)) then Some NoGlyph
  else None.

(** The sizes completed before the first turn that stops, that turn's
    size, and the reason. *)
Fixpoint first_stop (base_icon : image) (enc : encoding)
    (d : gmap string FS.node) (ss : list Z) : option (list Z * Z * stop) :=
  match ss with
  | [] => None
  | s :: ss' =>
      match check base_icon enc d s with
      | Some k => Some ([], s, k)
      | None =>
          match first_stop base_icon enc d ss' with
          | Some (done, t, k) => Some (s :: done, t, k)
          | None => None
          end
      end
  end.

(** The exception of a stopped turn. *)
Definition raised (size : Z) (k : stop) : result unit :=
  match k with
  | NoPixels => Raise (AtResize (size, size)) FS.OSError
  | NameTaken => Raise (AtSave (icon_path size)) FS.IsADirectoryError
  | NoEncoder => Raise (AtSave (icon_path size)) FS.OSError
  | NoGlyph => Raise (AtPrint (created size)) FS.UnicodeEncodeError
  end.

(** The world a stopped turn leaves, started in [w] with icons directory
    [d]. *)
Definition halt (base_icon : image) (d : gmap string FS.node) (size : Z)
    (k : stop) (w : world) : world :=
  match k with
  | NoPixels => w
  | NameTaken => log (EResize base_icon (size, size) LANCZOS) w
  | NoEncoder =>
      set_fs (FS.put icons_dir (FS.Dir (emptied d size)) (fs w))
        (log (EResize base_icon (size, size) LANCZOS) w)
  | NoGlyph =>
      log (ESave (icon_path size) (icon base_icon size))
        (set_fs (FS.put icons_dir (FS.Dir (store base_icon d size)) (fs w))
           (log (EResize base_icon (size, size) LANCZOS) w))
  end.

(** What the turns for [ss] come to, started in world [w] whose icons
    directory is [d]: all done, or stopped at the first turn that fails. *)
Definition saves_outcome (base_icon : image) (ss : list Z)
    (d : gmap string FS.node) (w : world) : result unit * world :=
  match first_stop base_icon (stdout_encoding w) d ss with
  | None => (Ok tt, after base_icon ss d w)
  | Some (done, s, k) =>
      (raised s k,
       halt base_icon (foldl (store base_icon) d done) s k
         (after base_icon done d w))
  end.

(** The world once the directory exists and the base image is open. *)
Definition ready (n : FS.node) (w : world) : world :=
  log (EOpen base_path) (log (EMakedirs "public/icons") (set_fs n w)).

(** The paths a trace opened and saved, and the bitmaps it handled. *)
Definition saved_paths (t : list event) : list string :=
  omap (fun e => match e with ESave path _ => Some path | _ => None end) t.

Definition opened_paths (t : list event) : list string :=
  omap (fun e => match e with EOpen path => Some path | _ => None end) t.

Definition resize_sources (t : list event) : list image :=
  omap (fun e => match e with EResize src _ _ => Some src | _ => None end) t.

Definition saved_images (t : list event) : list (string * image) :=
  omap (fun e => match e with ESave path im => Some (path, im) | _ => None end) t.

(** Directory, base image, then the loop body over [ss]. *)
Definition run_over (ss : list Z) : M unit :=
  os_makedirs "public/icons" true ;;;
  base_icon <- Image_open "public/icon-192.png" ;;
  for_each ss (loop_body base_icon).

(** The specification's reading of the program: one loop over the five
    sizes, with the body of the script's loop. *)
Definition main_single_loop : M unit := run_over all_sizes.

(** The base image as [Image.open] finds it in the tree [n]. *)
Definition load (n : FS.node) : FS.exn + image :=
  match FS.read (FS.split_path base_path) n with
  | inr bs =>
      match decode bs with
      | Some im => inr im
      | None => inl (refusal bs)
      end
  | inl e => inl e
  end.

(** The base image is missing (no regular file at its path) or
    [Image.open] refuses its bytes. *)
Definition base_unusable (n : FS.node) : Prop :=
  forall bs, FS.file_at (FS.split_path base_path) n = Some bs ->
             decode bs = None.

(** The base image is missing or undecodable: no regular file at its
    path, bytes that [Image.open] refuses, or a header that opens and
    pixel data that does not load. *)
Definition base_undecodable (n : FS.node) : Prop :=
  forall bs im, FS.file_at (FS.split_path base_path) n = Some bs ->
                decode bs = Some im -> loadable im = false.

(** The world [w] started with other arguments and other environment
    variables, standard output being the same. *)
Definition with_args (a : list string) (v : gmap string string) (w : world)
  : world :=
  World (fs w) (stdout w) (trace w) a v (stdout_encoding w).

(** A statement that neither reads nor changes the arguments and the
    environment variables of the process. *)
Definition ignores_args {A} (m : M A) : Prop :=
  forall a v w, m (with_args a v w) = ((m w).1, with_args a v (m w).2).

(** The components of the five output paths. *)
Definition output_paths : list (list string) :=
  map (fun s => FS.split_path (icon_path s)) all_sizes.

(** The icons directory [d'] differs from [d] at most in regular files
    under icon names that were not directories in [d]. *)
Definition icons_only (d d' : gmap string FS.node) : Prop :=
  forall c,
    d' !! c = d !! c \/
    exists s bs,
      s ∈ all_sizes /\ c = icon_name s /\
      d' !! c = Some (FS.File bs) /\ blocked d s = false.

(** The three ways a run over [ss] can go from [w]. *)
Inductive outcome (ss : list Z) (w : world) : result unit * world -> Prop :=
  | no_directory e :
      FS.makedirs icons_dir true (fs w) = inl e ->
      outcome ss w (Raise (AtMakedirs "public/icons") e, w)
  | no_image n e :
      FS.makedirs icons_dir true (fs w) = inr n ->
      load n = inl e ->
      outcome ss w
        (Raise (AtOpen base_path) e, log (EMakedirs "public/icons") (set_fs n w))
  | saving n base_icon d :
      FS.makedirs icons_dir true (fs w) = inr n ->
      load n = inr base_icon ->
      FS.dir_at icons_dir n = Some d ->
      outcome ss w (saves_outcome base_icon ss d (ready n w)).

End Script.

Arguments world {PIL}.
Arguments event {PIL}.
Arguments M {PIL} A.

(** ** A small executable instance of the interface *)

(** An image is its size and a flat payload.  The first two bytes of a
    file give the width and the height; a file shorter than that is no
    image, and one that announces 255 by 255 is refused as too large.
    The payload is the pixel data: none at all does not load.  Its first
    byte stands for the mode, and the encoder refuses mode 4.  Resizing
    keeps a prefix of the payload. *)
Definition byte_of (z : Z) : Byte.byte :=
  default Byte.x00 (Byte.of_N (Z.to_N (z mod 256))).

Definition sample_image : Type := (Z * Z) * list Byte.byte.

Definition too_large (bs : list Byte.byte) : bool :=
  match bs with
  | w :: h :: _ => (Byte.to_N w =? 255)%N && (Byte.to_N h =? 255)%N
  | _ => false
  end.

Definition sample_decode (bs : list Byte.byte) : option sample_image :=
  if too_large bs then None
  else match bs with
       | w :: h :: px =>
           Some ((Z.of_N (Byte.to_N w), Z.of_N (Byte.to_N h)), px)
       | _ => None
       end.

Definition sample_refusal (bs : list Byte.byte) : FS.exn :=
  if too_large bs then FS.DecompressionBombError
  else FS.UnidentifiedImageError.

Definition sample_loadable (im : sample_image) : bool :=
  match snd im with
  | [] => false
  | _ :: _ => true
  end.

Definition sample_resize (im : sample_image) (wh : Z * Z) (f : Resampling)
  : sample_image :=
  (wh, take (Z.to_nat (fst wh)) (snd im)).

Definition sample_encodable (im : sample_image) : bool :=
  match snd im with
  | mode :: _ => negb (Byte.to_N mode =? 4)%N
  | [] => true
  end.

Definition sample_encode (im : sample_image) : list Byte.byte :=
  byte_of (fst (fst im)) :: byte_of (snd (fst im)) :: snd im.

Definition sample_imaging : Imaging := {|
  image := sample_image;
  size := fst;
  decode := sample_decode;
  refusal := sample_refusal;
  loadable := sample_loadable;
  resize := sample_resize;
  encodable := sample_encodable;
  encode_png := sample_encode;
  resize_size := fun _ _ _ _ _ _ => eq_refl
|}.

Definition sample_base : list Byte.byte :=
  [Byte.xc0; Byte.xc0; Byte.x01; Byte.x02; Byte.x03].

(** A base image whose header opens and whose pixel data is missing. *)
Definition damaged_base : list Byte.byte := [Byte.xc0; Byte.xc0].

(** A base image in a mode the PNG encoder refuses. *)
Definition cmyk_base : list Byte.byte :=
  [Byte.xc0; Byte.xc0; Byte.x04; Byte.x02; Byte.x03].

Definition sample_world (root : FS.node) : @world sample_imaging :=
  World root [] [] [] ∅ UTF8.

(** The same, with a standard output that has ASCII only. *)
Definition ascii_world (root : FS.node) : @world sample_imaging :=
  World root [] [] [] ∅ ASCII.

(** A working directory with the base image and nothing else. *)
Definition tree0 : FS.node :=
  FS.Dir {[ "public" := FS.Dir {[ "icon-192.png" := FS.File sample_base ]} ]}.

(** An empty working directory. *)
Definition tree_empty : FS.node := FS.Dir ∅.

(** No base image, and a regular file where the icons directory goes. *)
Definition tree_icons_is_file : FS.node :=
  FS.Dir {[ "public" := FS.Dir {[ "icons" := FS.File [] ]} ]}.

(** The base image, an older icon, a stray file, and a directory that
    has the name of the 48-pixel icon. *)
Definition tree_blocked : FS.node :=
  FS.Dir {[ "public" :=
    FS.Dir {[ "icon-192.png" := FS.File sample_base;
              "icons" := FS.Dir {[ "icon-48.png" := FS.Dir ∅;
                                   "icon-128.png" := FS.File [Byte.x07];
                                   "notes.txt" := FS.File [Byte.x2a] ]} ]} ]}.

(** The base image and an icons directory that already has content. *)
Definition tree_used : FS.node :=
  FS.Dir {[ "public" :=
    FS.Dir {[ "icon-192.png" := FS.File sample_base;
              "icons" := FS.Dir {[ "icon-16.png" := FS.File [Byte.x07];
                                   "notes.txt" := FS.File [Byte.x2a] ]} ]} ]}.

(** A base image with a good header and no pixel data. *)
Definition tree_damaged : FS.node :=
  FS.Dir {[ "public" := FS.Dir {[ "icon-192.png" := FS.File damaged_base ]} ]}.

(** A base image the encoder refuses, and an older 16-pixel icon. *)
Definition tree_cmyk : FS.node :=
  FS.Dir {[ "public" :=
    FS.Dir {[ "icon-192.png" := FS.File cmyk_base;
              "icons" := FS.Dir {[ "icon-16.png" := FS.File [Byte.x07] ]} ]} ]}.

(** ** Facts about the file system *)

Local Open Scope list_scope.

Section FSFacts.
Import FS.
Implicit Types (p q r : list string) (n x : node) (d : gmap string node).

Lemma dir_at_stat p n d : dir_at p n = Some d <-> stat p n = Found (Dir d).
Proof.
  unfold dir_at. destruct (stat p n) as [[|]| |]; split; congruence.
Qed.

Lemma file_at_stat p n bs : file_at p n = Some bs <-> stat p n = Found (File bs).
Proof.
  unfold file_at. destruct (stat p n) as [[|]| |]; split; congruence.
Qed.

Lemma dir_at_cons c p es :
  dir_at (c :: p) (Dir es) = n' ← es !! c; dir_at p n'.
Proof. unfold dir_at. simpl. by destruct (es !! c). Qed.

Lemma file_at_cons c p es :
  file_at (c :: p) (Dir es) = n' ← es !! c; file_at p n'.
Proof. unfold file_at. simpl. by destruct (es !! c). Qed.

Lemma file_at_fresh_dirs p q : file_at q (fresh_dirs p) = None.
Proof.
  revert q. induction p as [|c p IH]; intros [|b q]; try done.
  simpl. rewrite file_at_cons.
  destruct (decide (c = b)) as [->|Hne].
  - rewrite lookup_singleton_eq. simpl. apply IH.
  - by rewrite lookup_singleton_ne.
Qed.

Lemma dir_at_fresh_dirs p : dir_at p (fresh_dirs p) = Some ∅.
Proof.
  induction p as [|c p IH]; [done|].
  simpl. rewrite dir_at_cons, lookup_singleton_eq. exact IH.
Qed.

(** Directory creation: the four cases of the path's status. *)
Lemma makedirs_exists p n d :
  dir_at p n = Some d -> makedirs p true n = inr n.
Proof.
  revert n. induction p as [|c p IH]; intros [bs|es] H; try done.
  rewrite dir_at_cons in H. simpl.
  destruct (es !! c) as [n'|] eqn:E; [|done]. simpl in H.
  rewrite (IH _ H). by rewrite insert_id.
Qed.

Lemma makedirs_absent p ok n :
  stat p n = ENOENT ->
  exists n', makedirs p ok n = inr n' /\ dir_at p n' = Some ∅.
Proof.
  revert n. induction p as [|c p IH]; intros [bs|es] H; try done.
  simpl in *. destruct (es !! c) as [n'|] eqn:E.
  - destruct (IH _ H) as (n'' & -> & Hd). eexists; split; [done|].
    by rewrite dir_at_cons, lookup_insert_eq.
  - eexists; split; [done|].
    rewrite dir_at_cons, lookup_insert_eq. apply dir_at_fresh_dirs.
Qed.

Lemma makedirs_enotdir p ok n :
  stat p n = ENOTDIR -> makedirs p ok n = inl NotADirectoryError.
Proof.
  revert n. induction p as [|c p IH]; intros [bs|es] H; try done.
  simpl in *. destruct (es !! c) as [n'|]; [|done]. by rewrite (IH _ H).
Qed.

Lemma makedirs_file p ok n bs :
  stat p n = Found (File bs) -> makedirs p ok n = inl FileExistsError.
Proof.
  revert n. induction p as [|c p IH]; intros [bs'|es] H; try done.
  simpl in *. destruct (es !! c) as [n'|]; [|done]. by rewrite (IH _ H).
Qed.

Lemma makedirs_dir p ok n n' :
  makedirs p ok n = inr n' -> is_Some (dir_at p n').
Proof.
  revert n n'. induction p as [|c p IH]; intros [bs|es] n' H; try done.
  - simpl in H. destruct ok; [|done]. injection H as <-. by eexists.
  - simpl in H. destruct (es !! c) as [n1|] eqn:E.
    + destruct (makedirs p ok n1) as [e|n2] eqn:E2; [done|].
      injection H as <-. rewrite dir_at_cons, lookup_insert_eq. simpl. eauto.
    + injection H as <-. rewrite dir_at_cons, lookup_insert_eq. simpl.
      rewrite dir_at_fresh_dirs. by eexists.
Qed.

(** Directory creation neither adds, removes nor changes a regular file. *)
Lemma makedirs_file_at p ok n n' q :
  makedirs p ok n = inr n' -> file_at q n' = file_at q n.
Proof.
  revert n n' q. induction p as [|c p IH]; intros [bs|es] n' q H; try done.
  - simpl in H. destruct ok; [|done]. by injection H as <-.
  - simpl in H. destruct q as [|b q]; [destruct (es !! c) as [n1|];
      [destruct (makedirs p ok n1); [done|] |]; by injection H as <- |].
    destruct (es !! c) as [n1|] eqn:E.
    + destruct (makedirs p ok n1) as [e|n2] eqn:E2; [done|].
      injection H as <-. rewrite !file_at_cons.
      destruct (decide (c = b)) as [->|Hne].
      * rewrite lookup_insert_eq, E. simpl. by apply IH.
      * by rewrite lookup_insert_ne.
    + injection H as <-. rewrite !file_at_cons.
      destruct (decide (c = b)) as [->|Hne].
      * rewrite lookup_insert_eq, E. simpl. apply file_at_fresh_dirs.
      * by rewrite lookup_insert_ne.
Qed.

(** Whatever could be resolved before directory creation still can, to a
    node of the same kind. *)
Lemma makedirs_keeps_dirs p ok n n' q :
  makedirs p ok n = inr n' -> is_Some (dir_at q n) -> is_Some (dir_at q n').
Proof.
  revert n n' q. induction p as [|c p IH]; intros [bs|es] n' q H; try done.
  - simpl in H. destruct ok; [|done]. by injection H as <-.
  - simpl in H. destruct q as [|b q]; [intros _; destruct (es !! c) as [n1|];
      [destruct (makedirs p ok n1); [done|] |]; injection H as <-; by eexists |].
    destruct (es !! c) as [n1|] eqn:E.
    + destruct (makedirs p ok n1) as [e|n2] eqn:E2; [done|].
      injection H as <-. rewrite !dir_at_cons.
      destruct (decide (c = b)) as [->|Hne].
      * rewrite lookup_insert_eq, E. simpl. by apply IH.
      * by rewrite lookup_insert_ne.
    + injection H as <-. rewrite !dir_at_cons.
      destruct (decide (c = b)) as [->|Hne].
      * rewrite E. simpl. by intros [? ?].
      * by rewrite lookup_insert_ne.
Qed.

(** Replacing a node twice keeps the second replacement. *)
Lemma put_put p x y n : put p y (put p x n) = put p y n.
Proof.
  revert n. induction p as [|c p IH]; intros [bs|es]; try done.
  simpl. destruct (es !! c) as [n'|] eqn:E; simpl; [|by rewrite E].
  by rewrite lookup_insert_eq, IH, insert_insert_eq.
Qed.

Lemma dir_at_put p n d d' :
  dir_at p n = Some d -> dir_at p (put p (Dir d') n) = Some d'.
Proof.
  revert n. induction p as [|c p IH]; intros [bs|es] H; try done.
  rewrite dir_at_cons in H. simpl.
  destruct (es !! c) as [n'|] eqn:E; [|done]. simpl in H.
  rewrite dir_at_cons, lookup_insert_eq. simpl. by apply IH.
Qed.

(** Regular files below a replaced directory are those of the new
    directory; all others are as before. *)
Lemma file_at_put p n d d' q :
  dir_at p n = Some d ->
  file_at q (put p (Dir d') n) =
    match strip_prefix p q with
    | Some r => file_at r (Dir d')
    | None => file_at q n
    end.
Proof.
  revert n q. induction p as [|c p IH]; intros [bs|es] q H; try done.
  rewrite dir_at_cons in H. simpl.
  destruct (es !! c) as [n'|] eqn:E; [|done]. simpl in H.
  destruct q as [|b q]; [done|].
  rewrite !file_at_cons. destruct (decide (c = b)) as [->|Hne].
  - rewrite lookup_insert_eq, E. simpl. by apply IH.
  - by rewrite lookup_insert_ne.
Qed.

(** Writing a file into an existing directory: refused when the name is
    taken by a directory, otherwise the entry is (re)bound to the file. *)
Lemma write_in_dir p c bs n d :
  dir_at p n = Some d ->
  write (p ++ [c]) bs n =
    match d !! c with
    | Some (Dir _) => inl IsADirectoryError
    | _ => inr (put p (Dir (<[c := File bs]> d)) n)
    end.
Proof.
  revert n. induction p as [|a p IH]; intros [bs'|es] H; try done.
  - injection H as ->. simpl. by destruct (d !! c) as [[|]|].
  - rewrite dir_at_cons in H. simpl.
    destruct (es !! a) as [n'|] eqn:E; [|done]. simpl in H.
    rewrite (IH _ H). by destruct (d !! c) as [[|]|].
Qed.

Lemma strip_prefix_app p r : strip_prefix p (p ++ r) = Some r.
Proof. induction p as [|a p IH]; [done|]. simpl. by rewrite decide_True. Qed.

Lemma strip_prefix_Some p q r : strip_prefix p q = Some r -> q = p ++ r.
Proof.
  revert q. induction p as [|a p IH]; intros q H; [by injection H as ->|].
  destruct q as [|b q]; [done|]. simpl in H.
  destruct (decide (a = b)) as [->|]; [|done]. by rewrite (IH _ H).
Qed.

Lemma stat_app p r n x : stat p n = Found x -> stat (p ++ r) n = stat r x.
Proof.
  revert n. induction p as [|c p IH]; intros n H; [by injection H as ->|].
  destruct n as [bs|es]; [done|]. simpl in *.
  destruct (es !! c) as [n'|]; [by apply IH|done].
Qed.

Lemma file_at_app p r n d :
  dir_at p n = Some d -> file_at (p ++ r) n = file_at r (Dir d).
Proof.
  intros H%dir_at_stat. unfold file_at. by rewrite (stat_app _ _ _ _ H).
Qed.

Lemma file_at_below_file r bs : r ≠ [] -> file_at r (File bs) = None.
Proof. by destruct r. Qed.

Lemma put_same p n x : stat p n = Found x -> put p x n = n.
Proof.
  revert n. induction p as [|c p IH]; intros n H; [by injection H as ->|].
  destruct n as [bs|es]; [done|]. simpl in *.
  destruct (es !! c) as [n'|] eqn:E; [|done].
  by rewrite (IH _ H), insert_id.
Qed.

Lemma dir_at_app p r n d :
  dir_at p n = Some d -> dir_at (p ++ r) n = dir_at r (Dir d).
Proof.
  intros H%dir_at_stat. unfold dir_at. by rewrite (stat_app _ _ _ _ H).
Qed.

Lemma stat_app_enoent p r n : stat p n = ENOENT -> stat (p ++ r) n = ENOENT.
Proof.
  revert n. induction p as [|c p IH]; intros [bs|es] H; try done.
  simpl in *. destruct (es !! c) as [n'|]; [by apply IH|done].
Qed.

Lemma dir_at_below_file r bs : dir_at r (File bs) = None.
Proof. by destruct r. Qed.

(** A file cannot be created where its directory is missing. *)
Lemma write_missing_parent p c bs n :
  stat p n = ENOENT -> write (p ++ [c]) bs n = inl FileNotFoundError.
Proof.
  revert n. induction p as [|a p IH]; intros [bs'|es] H; try done.
  simpl in *. destruct (es !! a) as [n'|].
  - by rewrite (IH _ H).
  - by destruct p.
Qed.

(** What a successful [makedirs] found: nothing, and it made an empty
    directory; or the directory, and it returned the tree as it was. *)
Lemma makedirs_result p n n' d :
  makedirs p true n = inr n' -> dir_at p n' = Some d ->
  (stat p n = ENOENT /\ d = ∅) \/ (n' = n /\ dir_at p n = Some d).
Proof.
  intros Hm Hd. destruct (stat p n) as [[bs|d0]| |] eqn:E.
  - rewrite (makedirs_file _ _ _ _ E) in Hm. done.
  - apply dir_at_stat in E. rewrite (makedirs_exists _ _ _ E) in Hm.
    injection Hm as <-. right. split; [done|]. congruence.
  - destruct (makedirs_absent _ true _ E) as (n1 & Hm1 & Hd1).
    left. split; [done|]. congruence.
  - rewrite (makedirs_enotdir _ _ _ E) in Hm. done.
Qed.

Lemma dir_at_fresh_dirs_prefix p q :
  is_Some (dir_at q (fresh_dirs p)) -> q `prefix_of` p.
Proof.
  revert q. induction p as [|c p IH]; intros [|b q] H.
  - done.
  - simpl in H. rewrite dir_at_cons, lookup_empty in H. by destruct H.
  - apply prefix_nil.
  - simpl in H. rewrite dir_at_cons in H.
    destruct (decide (c = b)) as [->|Hne].
    + rewrite lookup_singleton_eq in H. by apply prefix_cons, IH.
    + rewrite lookup_singleton_ne in H by done. by destruct H.
Qed.

(** The only directories [makedirs] adds are those along its path. *)
Lemma makedirs_new_dirs p ok n n' q :
  makedirs p ok n = inr n' -> is_Some (dir_at q n') ->
  is_Some (dir_at q n) \/ q `prefix_of` p.
Proof.
  revert n n' q. induction p as [|c p IH]; intros [bs|es] n' q H Hq; try done.
  - simpl in H. destruct ok; [|done]. injection H as <-. by left.
  - simpl in H. destruct q as [|b q]; [right; apply prefix_nil|].
    destruct (es !! c) as [n1|] eqn:E.
    + destruct (makedirs p ok n1) as [e|n2] eqn:E2; [done|].
      injection H as <-. rewrite dir_at_cons in Hq. rewrite dir_at_cons.
      destruct (decide (c = b)) as [->|Hne].
      * rewrite lookup_insert_eq in Hq. rewrite E. simpl in *.
        destruct (IH _ _ _ E2 Hq) as [?|?]; [by left|right].
        by apply prefix_cons.
      * rewrite lookup_insert_ne in Hq by done. by left.
    + injection H as <-. rewrite dir_at_cons in Hq. rewrite dir_at_cons.
      destruct (decide (c = b)) as [->|Hne].
      * rewrite lookup_insert_eq in Hq. simpl in Hq. right.
        by apply prefix_cons, dir_at_fresh_dirs_prefix.
      * rewrite lookup_insert_ne in Hq by done. by left.
Qed.

(** Replacing a directory by one with the same subdirectories keeps the
    set of directories of the tree, in both directions. *)
Lemma dir_at_put_mono p n d d' q :
  dir_at p n = Some d ->
  (forall r, is_Some (dir_at r (Dir d)) -> is_Some (dir_at r (Dir d'))) ->
  is_Some (dir_at q n) -> is_Some (dir_at q (put p (Dir d') n)).
Proof.
  revert n q. induction p as [|c p IH]; intros [bs|es] q H Hsub Hq; try done.
  - injection H as ->. by apply Hsub.
  - rewrite dir_at_cons in H. simpl.
    destruct (es !! c) as [n'|] eqn:E; [|done]. simpl in H.
    destruct q as [|b q]; [by eexists|].
    rewrite dir_at_cons in Hq. rewrite dir_at_cons.
    destruct (decide (c = b)) as [->|Hne].
    + rewrite lookup_insert_eq. rewrite E in Hq. simpl in *. by apply IH.
    + by rewrite lookup_insert_ne.
Qed.

Lemma dir_at_put_anti p n d d' q :
  dir_at p n = Some d ->
  (forall r, is_Some (dir_at r (Dir d')) -> is_Some (dir_at r (Dir d))) ->
  is_Some (dir_at q (put p (Dir d') n)) -> is_Some (dir_at q n).
Proof.
  revert n q. induction p as [|c p IH]; intros [bs|es] q H Hsub Hq; try done.
  - injection H as ->. by apply Hsub.
  - rewrite dir_at_cons in H. simpl in Hq.
    destruct (es !! c) as [n'|] eqn:E; [|done]. simpl in H.
    destruct q as [|b q]; [by eexists|].
    rewrite dir_at_cons in Hq. rewrite dir_at_cons.
    destruct (decide (c = b)) as [->|Hne].
    + rewrite lookup_insert_eq in Hq. rewrite E. simpl in *. by apply IH.
    + by rewrite lookup_insert_ne in Hq.
Qed.

End FSFacts.

(** ** The loop *)

(** Case analysis on a size known to be one of the five. *)
Ltac each_size H :=
  unfold all_sizes in H; rewrite !elem_of_cons in H;
  destruct H as [->|[->|[->|[->|[->|H]]]]]; [..|by apply elem_of_nil in H].

Section RunFacts.
Context `{PIL : Imaging}.
Implicit Types (w : world) (d : gmap string FS.node) (base : image).

Lemma known_path s :
  s ∈ all_sizes -> FS.split_path (icon_path s) = (icons_dir ++ [icon_name s])%list.
Proof. intros H. each_size H; vm_compute; reflexivity. Qed.

Lemma icon_name_inj s t :
  s ∈ all_sizes -> t ∈ all_sizes -> icon_name s = icon_name t -> s = t.
Proof.
  intros Hs Ht. each_size Hs; each_size Ht; vm_compute; congruence.
Qed.

Lemma icon_path_inj s t :
  s ∈ all_sizes -> t ∈ all_sizes -> icon_path s = icon_path t -> s = t.
Proof.
  intros Hs Ht. each_size Hs; each_size Ht; vm_compute; congruence.
Qed.

Lemma order_known s : s ∈ order -> s ∈ all_sizes.
Proof.
  unfold order, sizes, all_sizes.
  rewrite elem_of_app, !elem_of_cons, !elem_of_nil. tauto.
Qed.

Lemma known_order s : s ∈ all_sizes -> s ∈ order.
Proof.
  unfold order, sizes, all_sizes.
  rewrite elem_of_app, !elem_of_cons, !elem_of_nil. tauto.
Qed.

Lemma known_positive s : s ∈ all_sizes -> 0 < s.
Proof. intros H. each_size H; done. Qed.

Lemma order_all_sizes : order ≡ₚ all_sizes.
Proof.
  unfold order, sizes, all_sizes. cbn [app].
  do 3 apply perm_skip. apply perm_swap.
Qed.

Lemma order_NoDup : NoDup order.
Proof. by apply (bool_decide_unpack _). Qed.

(** *** Saving one icon *)

Lemma file_at_icon_before (n : FS.node) d s :
  FS.dir_at icons_dir n = Some d -> s ∈ all_sizes ->
  FS.file_at (FS.split_path (icon_path s)) n
  = match d !! icon_name s with
    | Some (FS.File bs) => Some bs
    | _ => None
    end.
Proof.
  intros Hd Hs. rewrite (known_path s Hs), (file_at_app _ _ _ d) by done.
  rewrite file_at_cons. by destruct (d !! icon_name s) as [[bs|es]|].
Qed.

(** Opening the file of an icon for writing, in a world whose icons
    directory is [d]. *)
Lemma save_spec (im : image) s w d :
  s ∈ all_sizes ->
  FS.dir_at icons_dir (fs w) = Some d ->
  Image_save im (icon_path s) w =
    if blocked d s
    then (Raise (AtSave (icon_path s)) FS.IsADirectoryError, w)
    else if encodable im
    then (Ok tt,
          log (ESave (icon_path s) im)
            (set_fs (FS.put icons_dir
                       (FS.Dir (<[icon_name s := FS.File (encode_png im)]> d))
                       (fs w)) w))
    else (Raise (AtSave (icon_path s)) FS.OSError,
          set_fs (FS.put icons_dir (FS.Dir (emptied d s)) (fs w)) w).
Proof.
  intros Hs Hd. unfold Image_save.
  rewrite (file_at_icon_before _ d s Hd Hs).
  rewrite (known_path s Hs), (write_in_dir _ _ _ _ d Hd).
  unfold blocked, emptied.
  destruct (d !! icon_name s) as [[bs|es]|] eqn:E; cbv beta iota; [| done |].
  - destruct (encodable im); [|done].
    erewrite write_in_dir by (by apply dir_at_put with d).
    rewrite lookup_insert_eq, insert_insert_eq. cbv beta iota.
    by rewrite put_put.
  - destruct (encodable im).
    + erewrite write_in_dir by (by apply dir_at_put with d).
      rewrite lookup_insert_eq, insert_insert_eq. cbv beta iota.
      by rewrite put_put.
    + rewrite put_same by (by apply dir_at_stat). by destruct w.
Qed.

(** One turn of the loop, in a world whose icons directory is [d]. *)
Lemma loop_body_spec base s w d :
  s ∈ all_sizes ->
  FS.dir_at icons_dir (fs w) = Some d ->
  loop_body base s w =
    match check base (stdout_encoding w) d s with
    | Some k => (raised s k, halt base d s k w)
    | None => (Ok tt, after base [s] d w)
    end.
Proof.
  intros Hs Hd. unfold loop_body, bind, Image_resize, check.
  fold (icon_path s) (created s) (icon base s).
  destruct (loadable base); [|done]. cbn [negb].
  rewrite (save_spec _ s _ d Hs) by done.
  destruct (blocked d s); [done|].
  destruct (encodable (icon base s)); [|done]. cbn [negb].
  unfold print. cbn [stdout_encoding log set_fs].
  destruct (can_encode (stdout_encoding w) (created s)); [|done]. cbn [negb].
  unfold after, step_events, store, log, emit, set_fs.
  cbn [fs stdout trace argv environ stdout_encoding foldl flat_map map].
  by rewrite <- !app_assoc.
Qed.

Lemma blocked_store base d x s :
  blocked d x = false -> blocked (store base d x) s = blocked d s.
Proof.
  unfold blocked, store. intros H.
  destruct (decide (icon_name x = icon_name s)) as [E|E].
  - rewrite <- E, lookup_insert_eq. by destruct (d !! icon_name x) as [[|]|].
  - by rewrite lookup_insert_ne.
Qed.

Lemma blocked_stored base d ss s :
  (forall x, x ∈ ss -> blocked d x = false) ->
  blocked (foldl (store base) d ss) s = blocked d s.
Proof.
  revert d. induction ss as [|x xs IH]; intros d H; [done|].
  cbn [foldl]. rewrite IH.
  - apply blocked_store, H. by left.
  - intros y Hy. rewrite blocked_store by (apply H; by left).
    apply H. by right.
Qed.

Lemma check_None base enc d s :
  check base enc d s = None <->
  loadable base = true /\ blocked d s = false /\
  encodable (icon base s) = true /\ can_encode enc (created s) = true.
Proof.
  unfold check.
  destruct (loadable base), (blocked d s), (encodable (icon base s)),
    (can_encode enc (created s)); cbn;
    (split; [intros H|intros (H1 & H2 & H3 & H4)]; done).
Qed.

Lemma check_store base enc d x s :
  blocked d x = false ->
  check base enc (store base d x) s = check base enc d s.
Proof. intros H. unfold check. by rewrite (blocked_store _ _ _ _ H). Qed.

Lemma first_stop_store base enc d x ss :
  blocked d x = false ->
  first_stop base enc (store base d x) ss = first_stop base enc d ss.
Proof.
  intros H. induction ss as [|s ss IH]; [done|].
  simpl. by rewrite (check_store _ _ _ _ _ H), IH.
Qed.

Lemma after_dir base ss d w :
  FS.dir_at icons_dir (fs w) = Some d ->
  FS.dir_at icons_dir (fs (after base ss d w))
  = Some (foldl (store base) d ss).
Proof. intros H. unfold after. cbn [fs]. by apply dir_at_put with d. Qed.

Lemma after_after base s ss d w :
  after base ss (store base d s) (after base [s] d w)
  = after base (s :: ss) d w.
Proof.
  unfold after.
  cbn [fs stdout trace argv environ stdout_encoding foldl flat_map map].
  by rewrite put_put, <- !app_assoc.
Qed.

Lemma after_nil base d w :
  FS.dir_at icons_dir (fs w) = Some d -> after base [] d w = w.
Proof.
  intros H. unfold after. cbn [foldl flat_map map].
  rewrite !app_nil_r, put_same by (by apply dir_at_stat). by destruct w.
Qed.

(** The loop over any of the known sizes. *)
Lemma for_each_spec base ss w d :
  (forall s, s ∈ ss -> s ∈ all_sizes) ->
  FS.dir_at icons_dir (fs w) = Some d ->
  for_each ss (loop_body base) w = saves_outcome base ss d w.
Proof.
  revert w d. induction ss as [|x xs IH]; intros w d Hk Hd.
  - unfold saves_outcome. simpl. by rewrite after_nil.
  - cbn [for_each]. unfold bind, saves_outcome. cbn [first_stop].
    rewrite (loop_body_spec base x w d) by (done || apply Hk; left).
    destruct (check base (stdout_encoding w) d x) as [k|] eqn:C.
    { cbn [foldl]. rewrite after_nil by done. by destruct k. }
    apply check_None in C as (_ & B & _ & _).
    rewrite (IH _ (store base d x)).
    + unfold saves_outcome.
      replace (stdout_encoding (after base [x] d w))
        with (stdout_encoding w) by done.
      rewrite first_stop_store by done.
      destruct (first_stop base (stdout_encoding w) d xs)
        as [[[pre t] k]|]; by rewrite after_after.
    + intros s Hs. apply Hk. by right.
    + by rewrite (after_dir base [x] d w Hd).
Qed.

Lemma for_each_app {A} (xs ys : list A) (body : A -> M unit) w :
  for_each (xs ++ ys) body w
  = bind (for_each xs body) (fun _ => for_each ys body) w.
Proof.
  revert w. induction xs as [|x xs IH]; intros w; [done|].
  cbn [for_each app]. unfold bind.
  destruct (body x w) as [[[]|s e] w1]; [|done]. by rewrite IH.
Qed.

(** The script is the loop body run over [order]. *)
Lemma main_as_loop w :
  main w =
    bind (os_makedirs "public/icons" true) (fun _ =>
    bind (Image_open "public/icon-192.png") (fun base_icon =>
    for_each order (loop_body base_icon))) w.
Proof.
  unfold main, bind.
  destruct (os_makedirs _ _ w) as [[[]|s e] w1]; [|done].
  destruct (Image_open _ w1) as [[base|s e] w2]; [|done].
  unfold order. rewrite for_each_app. unfold bind.
  destruct (for_each sizes _ w2) as [[[]|s e] w3]; [|done].
  cbn [for_each]. unfold loop_body, bind, ret.
  destruct (Image_resize _ _ _ w3) as [[r|s e] w4]; [|done].
  change ("public/icons/icon-" ++ str 64 ++ ".png")%string
    with "public/icons/icon-64.png".
  destruct (Image_save _ _ w4) as [[[]|s e] w5]; [|done].
  change ("✓ Created public/icons/icon-" ++ str 64 ++ ".png")%string
    with "✓ Created public/icons/icon-64.png".
  by destruct (print _ w5) as [[[]|s e] w6].
Qed.

Lemma run_over_outcome ss w :
  (forall s, s ∈ ss -> s ∈ all_sizes) -> outcome ss w (run_over ss w).
Proof.
  intros Hk. unfold run_over, bind, os_makedirs.
  change (FS.split_path "public/icons") with icons_dir.
  destruct (FS.makedirs icons_dir true (fs w)) as [e|n] eqn:Hm;
    [by apply no_directory|].
  destruct (makedirs_dir _ _ _ _ Hm) as [d Hd].
  unfold Image_open. fold base_path.
  replace (fs (log (EMakedirs "public/icons") (set_fs n w))) with n by done.
  destruct (load n) as [e|base] eqn:Hl; unfold load in Hl.
  - destruct (FS.read _ n) as [e'|bs] eqn:Hr.
    + injection Hl as ->. apply no_image; [done|]. unfold load. by rewrite Hr.
    + destruct (decode bs) eqn:Hdec; [done|]. injection Hl as <-.
      apply no_image; [done|]. unfold load. by rewrite Hr, Hdec.
  - destruct (FS.read _ n) as [e'|bs] eqn:Hr; [done|].
    destruct (decode bs) as [im|] eqn:Hdec; [|done]. injection Hl as ->.
    rewrite (for_each_spec base ss _ d) by done.
    apply saving; [done| |done]. unfold load. by rewrite Hr, Hdec.
Qed.

(** Every run of the script goes one of the three ways, over [order]. *)
Lemma main_outcome w : outcome order w (main w).
Proof.
  rewrite main_as_loop. apply (run_over_outcome order), order_known.
Qed.

Lemma main_single_loop_outcome w : outcome all_sizes w (main_single_loop w).
Proof. by apply run_over_outcome. Qed.

(** *** Reading outcomes *)

Lemma first_stop_None base enc d ss :
  first_stop base enc d ss = None ->
  forall s, s ∈ ss -> check base enc d s = None.
Proof.
  induction ss as [|x xs IH]; intros H s Hs; [by apply elem_of_nil in Hs|].
  simpl in H. destruct (check base enc d x) eqn:C; [done|].
  destruct (first_stop base enc d xs) as [[[pre t] k]|]; [done|].
  apply elem_of_cons in Hs as [->|Hs]; [done|by apply IH].
Qed.

Lemma first_stop_free base enc d ss :
  (forall s, s ∈ ss -> check base enc d s = None) ->
  first_stop base enc d ss = None.
Proof.
  induction ss as [|x xs IH]; intros H; [done|].
  simpl. rewrite H by left. rewrite IH; [done|].
  intros s Hs. apply H. by right.
Qed.

Lemma first_stop_Some base enc d ss pre t k :
  first_stop base enc d ss = Some (pre, t, k) ->
  exists rest, ss = pre ++ t :: rest /\ check base enc d t = Some k /\
               forall s, s ∈ pre -> check base enc d s = None.
Proof.
  revert pre. induction ss as [|x xs IH]; intros pre H; [done|].
  simpl in H. destruct (check base enc d x) as [k'|] eqn:C.
  - injection H as <- <- <-. exists xs. split_and!; [done..|].
    intros s Hs. by apply elem_of_nil in Hs.
  - destruct (first_stop base enc d xs) as [[[pre' t'] k']|]; [|done].
    injection H as <- <- <-. destruct (IH _ eq_refl) as (rest & -> & Ct & Hd).
    exists rest. split_and!; [done..|].
    intros s Hs. apply elem_of_cons in Hs as [->|Hs]; [done|by apply Hd].
Qed.

(** The three ways, spelled out. *)
Lemma outcome_inv ss w (r : result unit) w' :
  outcome ss w (r, w') ->
  (exists e,
     FS.makedirs icons_dir true (fs w) = inl e /\
     r = Raise (AtMakedirs "public/icons") e /\ w' = w) \/
  (exists n e,
     FS.makedirs icons_dir true (fs w) = inr n /\ load n = inl e /\
     r = Raise (AtOpen base_path) e /\
     w' = log (EMakedirs "public/icons") (set_fs n w)) \/
  (exists n base d,
     FS.makedirs icons_dir true (fs w) = inr n /\ load n = inr base /\
     FS.dir_at icons_dir n = Some d /\
     ((first_stop base (stdout_encoding w) d ss = None /\
       r = Ok tt /\ w' = after base ss d (ready n w)) \/
      (exists pre s k rest,
         ss = pre ++ s :: rest /\
         (forall x, x ∈ pre -> check base (stdout_encoding w) d x = None) /\
         check base (stdout_encoding w) d s = Some k /\
         r = raised s k /\
         w' = halt base (foldl (store base) d pre) s k
                (after base pre d (ready n w))))).
Proof.
  intros H. inversion H as [e Hm| n e Hm Hl | n base d Hm Hl Hd Heq].
  - left. by exists e.
  - right. left. by exists n, e.
  - right. right. exists n, base, d. split_and!; [done..|].
    unfold saves_outcome in Heq.
    replace (stdout_encoding (ready n w)) with (stdout_encoding w) in Heq
      by done.
    destruct (first_stop base (stdout_encoding w) d ss)
      as [[[pre s] k]|] eqn:B.
    + right. destruct (first_stop_Some _ _ _ _ _ _ _ B) as (rest & ? & ? & ?).
      exists pre, s, k, rest. split_and!; [done..| |]; congruence.
    + left. split_and!; [done| |]; congruence.
Qed.

Lemma outcome_ok ss w w' :
  outcome ss w (Ok tt, w') ->
  exists n base d,
    FS.makedirs icons_dir true (fs w) = inr n /\ load n = inr base /\
    FS.dir_at icons_dir n = Some d /\
    first_stop base (stdout_encoding w) d ss = None /\
    w' = after base ss d (ready n w).
Proof.
  intros [(e & _ & ? & _)|[(n & e & _ & _ & ? & _)|
    (n & base & d & Hm & Hl & Hd &
     [(B & _ & ->)|(pre & s & k & rest & _ & _ & _ & Hr & _)])]]%outcome_inv;
    try done.
  - by exists n, base, d.
  - by destruct k.
Qed.

Lemma outcome_det ss w X n base d :
  outcome ss w X ->
  FS.makedirs icons_dir true (fs w) = inr n -> load n = inr base ->
  FS.dir_at icons_dir n = Some d ->
  X = saves_outcome base ss d (ready n w).
Proof.
  intros H Hm Hl Hd.
  inversion H as [e Hm'|n' e Hm' Hl'|n' base' d' Hm' Hl' Hd' Heq];
    congruence.
Qed.

(** Loading succeeds exactly on a regular file that [Image.open]
    accepts. *)
Lemma load_inr n base :
  load n = inr base <->
  exists bs, FS.file_at (FS.split_path base_path) n = Some bs /\
             decode bs = Some base.
Proof.
  unfold load, FS.read, FS.file_at.
  destruct (FS.stat _ n) as [[bs|es]| |].
  - destruct (decode bs) as [im|] eqn:E; split.
    + intros [= <-]. by exists bs.
    + intros (bs' & [= <-] & Hd). congruence.
    + done.
    + intros (bs' & [= <-] & Hd). congruence.
  - split; [done|]. by intros (bs' & ? & _).
  - split; [done|]. by intros (bs' & ? & _).
  - split; [done|]. by intros (bs' & ? & _).
Qed.

(** *** Traces *)

Lemma saved_paths_app (t1 t2 : list event) :
  saved_paths (t1 ++ t2) = saved_paths t1 ++ saved_paths t2.
Proof. apply omap_app. Qed.

Lemma saved_images_app (t1 t2 : list event) :
  saved_images (t1 ++ t2) = saved_images t1 ++ saved_images t2.
Proof. apply omap_app. Qed.

Lemma resize_sources_app (t1 t2 : list event) :
  resize_sources (t1 ++ t2) = resize_sources t1 ++ resize_sources t2.
Proof. apply omap_app. Qed.

Lemma opened_paths_app (t1 t2 : list event) :
  opened_paths (t1 ++ t2) = opened_paths t1 ++ opened_paths t2.
Proof. apply omap_app. Qed.

Lemma saved_paths_steps base ss :
  saved_paths (flat_map (step_events base) ss) = map icon_path ss.
Proof. induction ss as [|x xs IH]; [done|]. simpl. by f_equal. Qed.

Lemma saved_images_steps base ss :
  saved_images (flat_map (step_events base) ss)
  = map (fun s => (icon_path s, icon base s)) ss.
Proof. induction ss as [|x xs IH]; [done|]. simpl. by f_equal. Qed.

Lemma resize_sources_steps base ss :
  resize_sources (flat_map (step_events base) ss) = map (fun _ => base) ss.
Proof. induction ss as [|x xs IH]; [done|]. simpl. by f_equal. Qed.

Lemma opened_paths_steps base ss :
  opened_paths (flat_map (step_events base) ss) = [].
Proof. induction ss as [|x xs IH]; [done|]. by simpl. Qed.

Lemma after_trace base ss d n w :
  trace (after base ss d (ready n w))
  = trace w ++ [EMakedirs "public/icons"; EOpen base_path]
      ++ flat_map (step_events base) ss.
Proof.
  unfold after, ready, log, set_fs. cbn [trace]. by rewrite <- !app_assoc.
Qed.

(** What a stopped turn adds to the trace: the effects it completed. *)
Lemma halt_trace base d s k w :
  trace (halt base d s k w)
  = trace w ++
      match k with
      | NoPixels => []
      | NameTaken | NoEncoder => [EResize base (s, s) LANCZOS]
      | NoGlyph => [EResize base (s, s) LANCZOS;
                    ESave (icon_path s) (icon base s)]
      end.
Proof.
  destruct k; unfold halt, log, set_fs; cbn [trace];
    by rewrite ?app_nil_r, <- ?app_assoc.
Qed.

Lemma halt_stdout base d s k w : stdout (halt base d s k w) = stdout w.
Proof. by destruct k. Qed.

(** The icons directory a stopped turn leaves. *)
Lemma halt_fs base d s k w :
  FS.dir_at icons_dir (fs w) = Some d ->
  fs (halt base d s k w)
  = FS.put icons_dir
      (FS.Dir match k with
              | NoPixels | NameTaken => d
              | NoEncoder => emptied d s
              | NoGlyph => store base d s
              end) (fs w).
Proof.
  intros Hd.
  destruct k; unfold halt, log, set_fs; cbn [fs]; try done;
    by rewrite put_same by (by apply dir_at_stat).
Qed.

(** *** Directories of icons *)

Lemma foldl_store_other base d ss c :
  (forall x, x ∈ ss -> icon_name x ≠ c) ->
  foldl (store base) d ss !! c = d !! c.
Proof.
  revert d. induction ss as [|x xs IH]; intros d H; [done|].
  simpl. rewrite IH by (intros y Hy; apply H; by right).
  unfold store. apply lookup_insert_ne, H. by left.
Qed.

Lemma foldl_store_lookup base d ss s :
  s ∈ all_sizes -> (forall x, x ∈ ss -> x ∈ all_sizes) -> s ∈ ss ->
  foldl (store base) d ss !! icon_name s
  = Some (FS.File (encode_png (icon base s))).
Proof.
  intros Hs. revert d. induction ss as [|x xs IH]; intros d Hk Hin;
    [by apply elem_of_nil in Hin|].
  simpl. destruct (decide (s ∈ xs)) as [Hxs|Hxs].
  - apply IH; [|done]. intros y Hy. apply Hk. by right.
  - apply elem_of_cons in Hin as [->|Hin]; [|done].
    rewrite foldl_store_other; [apply lookup_insert_eq|].
    intros y Hy E. apply Hxs.
    rewrite <- (icon_name_inj y x); [done| |done..]. apply Hk. by right.
Qed.

Lemma emptied_other d s c : c ≠ icon_name s -> emptied d s !! c = d !! c.
Proof.
  intros H. unfold emptied.
  destruct (d !! icon_name s) as [[bs|es]|]; [|done..].
  by rewrite lookup_insert_ne.
Qed.

(** Saving icons that are already there, unchanged, changes nothing. *)
Lemma foldl_store_id base d ss :
  (forall x, x ∈ ss ->
     d !! icon_name x = Some (FS.File (encode_png (icon base x)))) ->
  foldl (store base) d ss = d.
Proof.
  induction ss as [|x xs IH]; intros H; [done|].
  simpl. unfold store at 2. rewrite insert_id by (apply H; left).
  apply IH. intros y Hy. apply H. by right.
Qed.

(** The same five icons, whichever of the two orders they are saved in. *)
Lemma foldl_store_order base d :
  foldl (store base) d order = foldl (store base) d all_sizes.
Proof.
  unfold order, sizes, all_sizes. cbn [foldl app]. unfold store at 1 2 6 7.
  apply insert_insert_ne. vm_compute. intros H. discriminate H.
Qed.

Lemma icons_only_refl d : icons_only d d.
Proof. intros c. by left. Qed.

Lemma icons_only_stored base d ss :
  (forall x, x ∈ ss -> x ∈ all_sizes) ->
  (forall x, x ∈ ss -> blocked d x = false) ->
  icons_only d (foldl (store base) d ss).
Proof.
  intros Hk Hb c.
  destruct (decide (c ∈ map icon_name ss)) as [Hin|Hout].
  - apply list_elem_of_In, in_map_iff in Hin as (x & <- & Hx%list_elem_of_In).
    right. exists x, (encode_png (icon base x)).
    split_and!; [by apply Hk|done| |by apply Hb].
    by apply foldl_store_lookup; [apply Hk| |].
  - left. apply foldl_store_other.
    intros x Hx <-. apply Hout, list_elem_of_In, in_map, list_elem_of_In, Hx.
Qed.

Lemma icons_only_store base d d' s :
  s ∈ all_sizes -> blocked d s = false ->
  icons_only d d' -> icons_only d (store base d' s).
Proof.
  intros Hs Hb H c. unfold store.
  destruct (decide (c = icon_name s)) as [->|Hne].
  - right. exists s, (encode_png (icon base s)).
    split_and!; [done|done| |done]. apply lookup_insert_eq.
  - rewrite lookup_insert_ne by done. apply H.
Qed.

Lemma icons_only_emptied d d' s :
  s ∈ all_sizes -> blocked d s = false ->
  icons_only d d' -> icons_only d (emptied d' s).
Proof.
  intros Hs Hb H c. unfold emptied.
  destruct (d' !! icon_name s) as [[bs|es]|] eqn:E; [|apply H..].
  destruct (decide (c = icon_name s)) as [->|Hne].
  - right. exists s, []. split_and!; [done|done| |done]. apply lookup_insert_eq.
  - rewrite lookup_insert_ne by done. apply H.
Qed.

(** A tree whose icons directory changed in icon files only has the
    regular files it had at every other path. *)
Lemma icons_only_frame (n : FS.node) d d' q :
  FS.dir_at icons_dir n = Some d -> icons_only d d' ->
  q ∉ output_paths ->
  FS.file_at q (FS.put icons_dir (FS.Dir d') n) = FS.file_at q n.
Proof.
  intros Hd Ho Hq. rewrite (file_at_put _ _ d) by done.
  destruct (FS.strip_prefix icons_dir q) as [r|] eqn:E; [|done].
  apply strip_prefix_Some in E as ->. rewrite (file_at_app _ _ _ d) by done.
  destruct r as [|c r]; [done|]. rewrite !file_at_cons.
  destruct (Ho c) as [->|(s & bs & Hs & -> & Hc & Hb)]; [done|].
  rewrite Hc. simpl.
  assert (r ≠ []) as Hr.
  { intros ->. apply Hq. unfold output_paths.
    apply list_elem_of_In, in_map_iff. exists s.
    split; [by rewrite known_path|by apply list_elem_of_In]. }
  rewrite file_at_below_file by done. unfold blocked in Hb.
  destruct (d !! icon_name s) as [[bs'|es]|]; simpl; [|done..].
  by rewrite file_at_below_file.
Qed.

(** It has a regular file wherever it had one. *)
Lemma icons_only_files (n : FS.node) d d' q :
  FS.dir_at icons_dir n = Some d -> icons_only d d' ->
  is_Some (FS.file_at q n) ->
  is_Some (FS.file_at q (FS.put icons_dir (FS.Dir d') n)).
Proof.
  intros Hd Ho Hq. rewrite (file_at_put _ _ d) by done.
  destruct (FS.strip_prefix icons_dir q) as [r|] eqn:E; [|done].
  apply strip_prefix_Some in E as ->.
  rewrite (file_at_app _ _ _ d) in Hq by done.
  destruct r as [|c r]; [done|]. rewrite file_at_cons in Hq.
  rewrite file_at_cons.
  destruct (Ho c) as [->|(s & bs & Hs & -> & Hc & Hb)]; [done|].
  rewrite Hc. simpl. unfold blocked in Hb.
  destruct (d !! icon_name s) as [[bs'|es]|]; simpl in Hq;
    [|done|by destruct Hq].
  destruct r; [by eexists|]. by destruct Hq.
Qed.

(** And it has the same directories. *)
Lemma icons_only_dirs (n : FS.node) d d' q :
  FS.dir_at icons_dir n = Some d -> icons_only d d' ->
  is_Some (FS.dir_at q (FS.put icons_dir (FS.Dir d') n))
  <-> is_Some (FS.dir_at q n).
Proof.
  intros Hd Ho.
  assert (forall r, is_Some (FS.dir_at r (FS.Dir d'))
                    <-> is_Some (FS.dir_at r (FS.Dir d))) as Hsub.
  { intros [|c r]; [by split; eexists|]. rewrite !dir_at_cons.
    destruct (Ho c) as [->|(s & bs & Hs & -> & Hc & Hb)]; [done|].
    rewrite Hc. simpl. rewrite dir_at_below_file. unfold blocked in Hb.
    destruct (d !! icon_name s) as [[bs'|es]|]; simpl; [|done..].
    by rewrite dir_at_below_file. }
  split.
  - apply dir_at_put_anti with d; [done|]. intros r. by apply Hsub.
  - apply dir_at_put_mono with d; [done|]. intros r. by apply Hsub.
Qed.

(** The file at an icon's path once the icons of [ss] are saved. *)
Lemma file_at_icon (n : FS.node) d d' s :
  FS.dir_at icons_dir n = Some d -> s ∈ all_sizes ->
  FS.file_at (FS.split_path (icon_path s)) (FS.put icons_dir (FS.Dir d') n)
  = match d' !! icon_name s with
    | Some (FS.File bs) => Some bs
    | _ => None
    end.
Proof.
  intros Hd Hs. rewrite (known_path s Hs), (file_at_put _ _ d) by done.
  rewrite strip_prefix_app, file_at_cons.
  by destruct (d' !! icon_name s) as [[bs|es]|].
Qed.

Lemma file_at_after_saved base ss d w s :
  FS.dir_at icons_dir (fs w) = Some d ->
  s ∈ all_sizes -> (forall x, x ∈ ss -> x ∈ all_sizes) -> s ∈ ss ->
  FS.file_at (FS.split_path (icon_path s)) (fs (after base ss d w))
  = Some (encode_png (icon base s)).
Proof.
  intros Hd Hs Hk Hin. unfold after. cbn [fs].
  by rewrite (file_at_icon _ d), (foldl_store_lookup base d ss s).
Qed.

Lemma known_output_path s :
  s ∈ all_sizes -> FS.split_path (icon_path s) ∈ output_paths.
Proof.
  intros H. unfold output_paths.
  apply list_elem_of_In, (in_map (fun s => FS.split_path (icon_path s))).
  by apply list_elem_of_In.
Qed.

Lemma saved_path_known ss p :
  (forall x, x ∈ ss -> x ∈ all_sizes) ->
  p ∈ map icon_path ss -> p ∈ map icon_path all_sizes.
Proof.
  intros Hk Hp. apply list_elem_of_In, in_map_iff in Hp as (x & <- & Hx).
  apply list_elem_of_In, in_map_iff. exists x. split; [done|].
  by apply list_elem_of_In, Hk, list_elem_of_In.
Qed.

Lemma base_not_output : FS.split_path base_path ∉ output_paths.
Proof. intros H. apply (bool_decide_pack _) in H. by vm_compute in H. Qed.

End RunFacts.

(** ** Arguments and environment *)

Section Arguments.
Context `{PIL : Imaging}.

Lemma ignores_args_ret {A} (x : A) : ignores_args (ret x).
Proof. by intros a v w. Qed.

Lemma ignores_args_bind {A B} (m : M A) (k : A -> M B) :
  ignores_args m -> (forall x, ignores_args (k x)) -> ignores_args (bind m k).
Proof.
  intros Hm Hk a v w. unfold bind. rewrite Hm.
  destruct (m w) as [[x|s e] w1]; cbn [fst snd]; [apply Hk|done].
Qed.

Lemma ignores_args_for_each {A} (xs : list A) (body : A -> M unit) :
  (forall x, ignores_args (body x)) -> ignores_args (for_each xs body).
Proof.
  intros Hb. induction xs as [|x xs IH]; [apply ignores_args_ret|].
  cbn [for_each]. by apply ignores_args_bind.
Qed.

Lemma ignores_args_makedirs path ok : ignores_args (os_makedirs path ok).
Proof.
  intros a v w. unfold os_makedirs. cbn [fs with_args].
  by destruct (FS.makedirs _ ok (fs w)).
Qed.

Lemma ignores_args_open path : ignores_args (Image_open path).
Proof.
  intros a v w. unfold Image_open. cbn [fs with_args].
  destruct (FS.read _ (fs w)) as [e|bs]; [done|]. by destruct (decode bs).
Qed.

Lemma ignores_args_resize im wh f : ignores_args (Image_resize im wh f).
Proof. intros a v w. unfold Image_resize. by destruct (loadable im). Qed.

Lemma ignores_args_save im path : ignores_args (Image_save im path).
Proof.
  intros a v w. unfold Image_save. cbn [fs with_args].
  destruct (FS.write _ [] (fs w)) as [e|n]; [done|].
  destruct (encodable im).
  - by destruct (FS.write _ _ n).
  - by destruct (FS.file_at _ (fs w)).
Qed.

Lemma ignores_args_print line : ignores_args (print line).
Proof.
  intros a v w. unfold print. cbn [stdout_encoding with_args].
  by destruct (can_encode (stdout_encoding w) line).
Qed.

Lemma ignores_args_loop_body base s : ignores_args (loop_body base s).
Proof.
  unfold loop_body.
  apply ignores_args_bind; [apply ignores_args_resize|]. intros im.
  apply ignores_args_bind; [apply ignores_args_save|]. intros _.
  apply ignores_args_print.
Qed.

Lemma ignores_args_main : ignores_args main.
Proof.
  unfold main.
  apply ignores_args_bind; [apply ignores_args_makedirs|]. intros _.
  apply ignores_args_bind; [apply ignores_args_open|]. intros base.
  apply ignores_args_bind;
    [apply ignores_args_for_each, ignores_args_loop_body|]. intros _.
  apply ignores_args_bind; [apply ignores_args_resize|]. intros im.
  apply ignores_args_bind; [apply ignores_args_save|]. intros _.
  apply ignores_args_print.
Qed.

End Arguments.

(** ** Whole runs *)

Section Runs.
Context `{PIL : Imaging}.
Implicit Types (w : world) (d : gmap string FS.node) (base : image).

(** A run is its result and the world it leaves. *)
Lemma run_result {A} (m : M A) w (r : result A) :
  (m w).1 = r -> m w = (r, (m w).2).
Proof. intros <-. by destruct (m w). Qed.

Lemma check_unblocked base enc d s k :
  check base enc d s = Some k -> k = NoEncoder \/ k = NoGlyph ->
  blocked d s = false.
Proof.
  unfold check.
  destruct (loadable base), (blocked d s), (encodable (icon base s)),
    (can_encode enc (created s)); cbn; intros [= <-] [?|?]; done.
Qed.

Lemma check_free base enc d s :
  check base enc d s = None -> blocked d s = false.
Proof. by intros (_ & ? & _)%check_None. Qed.

Lemma check_NoPixels base enc d s :
  loadable base = false -> check base enc d s = Some NoPixels.
Proof. intros H. unfold check. by rewrite H. Qed.

Lemma check_loadable base enc d s k :
  check base enc d s = Some k -> k ≠ NoPixels -> loadable base = true.
Proof.
  unfold check. destruct (loadable base); [done|]. by intros [= <-].
Qed.

(** The tree of a stopped run, seen from the tree [n] that
    [os.makedirs] made. *)
Lemma halt_tree base d pre s k n w :
  FS.dir_at icons_dir n = Some d ->
  fs (halt base (foldl (store base) d pre) s k (after base pre d (ready n w)))
  = FS.put icons_dir
      (FS.Dir match k with
              | NoPixels | NameTaken => foldl (store base) d pre
              | NoEncoder => emptied (foldl (store base) d pre) s
              | NoGlyph => store base (foldl (store base) d pre) s
              end) n.
Proof.
  intros Hd.
  rewrite halt_fs by (by apply (after_dir base pre d (ready n w))).
  unfold after. cbn [fs ready log set_fs]. by rewrite put_put.
Qed.

(** The tree a run leaves: the one it found, or the one [os.makedirs]
    made of it with the icons directory changed in icon files only. *)
Lemma final_tree ss w (r : result unit) w' :
  (forall x, x ∈ ss -> x ∈ all_sizes) ->
  outcome ss w (r, w') ->
  fs w' = fs w \/
  exists n d d',
    FS.makedirs icons_dir true (fs w) = inr n /\
    FS.dir_at icons_dir n = Some d /\
    icons_only d d' /\
    fs w' = FS.put icons_dir (FS.Dir d') n.
Proof.
  intros Hk [(e & _ & _ & ->)|[(n & e & Hm & _ & _ & ->)|
    (n & base & d & Hm & Hl & Hd &
     [(B & _ & ->)|(pre & s & k & rest & -> & Hpre & Hs & _ & ->)])]]%outcome_inv.
  - by left.
  - right. destruct (makedirs_dir _ _ _ _ Hm) as [d Hd].
    exists n, d, d. split_and!; [done|done|apply icons_only_refl|].
    cbn [fs log set_fs]. symmetry. by apply put_same, dir_at_stat.
  - right. exists n, d, (foldl (store base) d ss).
    split_and!; [done|done| |done].
    apply icons_only_stored; [done|]. intros x Hx.
    by apply (check_free base (stdout_encoding w)), (first_stop_None _ _ _ _ B).
  - right.
    assert (icons_only d (foldl (store base) d pre)) as Ho.
    { apply icons_only_stored.
      - intros x Hx. apply Hk, elem_of_app. by left.
      - intros x Hx. by apply (check_free base (stdout_encoding w)), Hpre. }
    assert (s ∈ all_sizes) as Hsk.
    { apply Hk, elem_of_app. right. by left. }
    eexists n, d, _. split_and!; [done|done| |by apply halt_tree].
    destruct k; [done|done| |].
    + apply icons_only_emptied; [done| |done].
      apply (check_unblocked _ _ _ _ _ Hs). by left.
    + apply icons_only_store; [done| |done].
      apply (check_unblocked _ _ _ _ _ Hs). by right.
Qed.

(** A run leaves every regular file outside the five output paths as it
    was. *)
Lemma main_frame (w w' : world) (r : result unit) q :
  main w = (r, w') -> q ∉ output_paths ->
  FS.file_at q (fs w') = FS.file_at q (fs w).
Proof.
  intros Hrun Hq. pose proof (main_outcome w) as H. rewrite Hrun in H.
  apply final_tree in H as [->|(n & d & d' & Hm & Hd & Ho & ->)];
    [done| |apply order_known].
  rewrite (icons_only_frame n d d') by done.
  by apply makedirs_file_at with icons_dir true.
Qed.

(** The icons directory after a completed run holds the five icons. *)
Lemma stored_lookup base d s :
  s ∈ order ->
  foldl (store base) d order !! icon_name s
  = Some (FS.File (encode_png (icon base s))).
Proof.
  intros Hs.
  apply foldl_store_lookup; [by apply order_known|apply order_known|done].
Qed.

(** A second run, started where a completed run ended, completes too and
    leaves the tree exactly as it found it. *)
Lemma rerun_same_tree (w w1 : world) :
  main w = (Ok tt, w1) ->
  exists w2, main w1 = (Ok tt, w2) /\ fs w2 = fs w1.
Proof.
  intros Hrun. pose proof (main_outcome w) as H. rewrite Hrun in H.
  apply outcome_ok in H as (n & base & d & Hm & Hl & Hd & Hb & ->).
  set (dF := foldl (store base) d order).
  set (w1 := after base order d (ready n w)).
  assert (FS.dir_at icons_dir (fs w1) = Some dF) as Hd1.
  { by apply (after_dir base order d (ready n w)). }
  assert (FS.makedirs icons_dir true (fs w1) = inr (fs w1)) as Hm1.
  { by apply makedirs_exists with dF. }
  assert (load (fs w1) = inr base) as Hl1.
  { apply load_inr. apply load_inr in Hl as (bs & Hf & Hdec).
    exists bs. split; [|done]. rewrite <- Hf.
    rewrite (main_frame w w1 (Ok tt)); [|done|apply base_not_output].
    symmetry. by apply makedirs_file_at with icons_dir true. }
  assert (first_stop base (stdout_encoding w1) dF order = None) as Hb1.
  { apply first_stop_free. intros s Hs.
    pose proof (first_stop_None _ _ _ _ Hb s Hs) as Hc.
    apply check_None in Hc as (? & _ & ? & ?).
    apply check_None. split_and!; [done| |done..].
    unfold blocked, dF. by rewrite stored_lookup. }
  pose proof (outcome_det _ _ _ _ _ _ (main_outcome w1) Hm1 Hl1 Hd1) as Hrun1.
  unfold saves_outcome in Hrun1.
  replace (stdout_encoding (ready (fs w1) w1)) with (stdout_encoding w1)
    in Hrun1 by done.
  rewrite Hb1 in Hrun1.
  eexists. split; [exact Hrun1|].
  unfold after at 1. cbn [fs ready log set_fs].
  rewrite foldl_store_id by (intros x Hx; by apply stored_lookup).
  unfold w1, after. cbn [fs]. by rewrite put_put.
Qed.

(** Once public/icons is a directory, looking up the base image never
    runs into a regular file on the way. *)
Lemma base_not_enotdir (n : FS.node) :
  is_Some (FS.dir_at icons_dir n) ->
  FS.stat (FS.split_path base_path) n ≠ FS.ENOTDIR.
Proof.
  change (FS.split_path base_path) with ["public"; "icon-192.png"].
  unfold icons_dir. intros [d Hd]. destruct n as [bs|es]; [done|].
  rewrite dir_at_cons in Hd. cbn [FS.stat].
  destruct (es !! "public") as [[bs|pub]|]; [done| |done].
  by destruct (pub !! "icon-192.png").
Qed.

End Runs.

(** ** The claims *)

(** C1: after a run that completes without error, for every size in
    16, 32, 48, 64, 128 the run has saved a bitmap to
    public/icons/icon-<size>.png, that bitmap is <size> wide and <size>
    high, and the file holds its PNG encoding. *)
Theorem icons_written_with_size `{PIL : Imaging} (w w' : world) (s : Z) :
  main w = (Ok tt, w') ->
  s ∈ all_sizes ->
  exists t im,
    trace w' = trace w ++ t /\
    (icon_path s, im) ∈ saved_images t /\
    size im = (s, s) /\
    FS.file_at (FS.split_path (icon_path s)) (fs w') = Some (encode_png im).
Proof.
  intros Hrun Hs. pose proof (main_outcome w) as H. rewrite Hrun in H.
  apply outcome_ok in H as (n & base & d & Hm & Hl & Hd & Hb & ->).
  exists ([EMakedirs "public/icons"; EOpen base_path]
          ++ flat_map (step_events base) order), (icon base s).
  split_and!.
  - apply after_trace.
  - rewrite saved_images_app, saved_images_steps. apply elem_of_app. right.
    apply list_elem_of_In, in_map_iff.
    exists s. split; [done|]. by apply list_elem_of_In, known_order.
  - unfold icon. apply resize_size; by apply known_positive.
  - apply (file_at_after_saved base order d); [done..|apply order_known|by apply known_order].
Qed.

Lemma icons_written_with_size_witness :
  main (sample_world tree0) = (Ok tt, (main (sample_world tree0)).2) /\
  48 ∈ all_sizes /\
  exists t im,
    trace (main (sample_world tree0)).2 = trace (sample_world tree0) ++ t /\
    (icon_path 48, im) ∈ saved_images t /\
    size im = (48, 48) /\
    FS.file_at (FS.split_path (icon_path 48)) (fs (main (sample_world tree0)).2)
    = Some (encode_png im).
Proof.
  assert (H48 : 48 ∈ all_sizes)
    by (do 2 apply list_elem_of_further; apply list_elem_of_here).
  assert (Hrun : main (sample_world tree0)
                 = (Ok tt, (main (sample_world tree0)).2))
    by (apply run_result; vm_compute; reflexivity).
  split; [exact Hrun|]. split; [exact H48|].
  exact (icons_written_with_size (sample_world tree0) _ 48 Hrun H48).
Defined.

(** C2, as the code has it: on every run that completes, the files are
    written, and the confirmation lines printed, in the order 16, 32, 48,
    128, 64 (the loop, then the separate 64 step). *)
Theorem saves_follow_script_order `{PIL : Imaging} (w w' : world) :
  main w = (Ok tt, w') ->
  exists t,
    trace w' = trace w ++ t /\
    saved_paths t = map icon_path [16; 32; 48; 128; 64] /\
    stdout w' = stdout w ++ map created [16; 32; 48; 128; 64].
Proof.
  intros Hrun. pose proof (main_outcome w) as H. rewrite Hrun in H.
  apply outcome_ok in H as (n & base & d & Hm & Hl & Hd & Hb & ->).
  exists ([EMakedirs "public/icons"; EOpen base_path]
          ++ flat_map (step_events base) order).
  split_and!; [apply after_trace| |done].
  by rewrite !saved_paths_app, saved_paths_steps.
Qed.

Lemma saves_follow_script_order_witness :
  main (sample_world tree0) = (Ok tt, (main (sample_world tree0)).2) /\
  exists t,
    trace (main (sample_world tree0)).2 = trace (sample_world tree0) ++ t /\
    saved_paths t = map icon_path [16; 32; 48; 128; 64] /\
    stdout (main (sample_world tree0)).2
    = stdout (sample_world tree0) ++ map created [16; 32; 48; 128; 64].
Proof.
  assert (Hrun : main (sample_world tree0)
                 = (Ok tt, (main (sample_world tree0)).2))
    by (apply run_result; vm_compute; reflexivity).
  split; [exact Hrun|].
  exact (saves_follow_script_order (sample_world tree0) _ Hrun).
Defined.

(** C2, as stated, fails, in two ways.  On a run that completes, 128 is
    written and confirmed before 64, so the sequence is not 16, 32, 48, 64,
    128.  And not every run gets through the five sizes: where a directory
    has the name of the 48-pixel icon, the run ends at that save, having
    written and confirmed 16 and 32 only. *)
Lemma spec_order_counterexample :
  main (sample_world tree0) = (Ok tt, (main (sample_world tree0)).2) /\
  saved_paths (trace (main (sample_world tree0)).2)
  = ["public/icons/icon-16.png"; "public/icons/icon-32.png";
     "public/icons/icon-48.png"; "public/icons/icon-128.png";
     "public/icons/icon-64.png"] /\
  saved_paths (trace (main (sample_world tree0)).2)
  ≠ map icon_path [16; 32; 48; 64; 128] /\
  stdout (main (sample_world tree0)).2 ≠ map created [16; 32; 48; 64; 128] /\
  (main (sample_world tree_blocked)).1
  = Raise (AtSave "public/icons/icon-48.png") FS.IsADirectoryError /\
  saved_paths (trace (main (sample_world tree_blocked)).2)
  = ["public/icons/icon-16.png"; "public/icons/icon-32.png"] /\
  stdout (main (sample_world tree_blocked)).2
  = ["✓ Created public/icons/icon-16.png";
     "✓ Created public/icons/icon-32.png"].
Proof.
  split_and!;
    [by apply run_result|by vm_compute| | |by vm_compute..];
    vm_compute; intros H; discriminate H.
Qed.

(** C3, as the code has it: when the base image is missing or
    undecodable, the run aborts with an uncaught exception before any
    resize completes, any save and any confirmation, and no regular file
    is created or changed.  Which statement raises depends on the case:
    [os.makedirs], when it fails; otherwise [Image.open], when there is no
    regular file at the path or [Image.open] refuses its bytes; otherwise
    the first [resize], with [OSError], when the file opens and its pixel
    data does not load. *)
Theorem undecodable_base_aborts `{PIL : Imaging} (w w' : world)
    (r : result unit) :
  base_undecodable (fs w) ->
  main w = (r, w') ->
  exists t,
    trace w' = trace w ++ t /\
    resize_sources t = [] /\ saved_paths t = [] /\
    stdout w' = stdout w /\
    (forall q, FS.file_at q (fs w') = FS.file_at q (fs w)) /\
    match FS.makedirs icons_dir true (fs w) with
    | inl e => r = Raise (AtMakedirs "public/icons") e
    | inr _ =>
        match FS.file_at (FS.split_path base_path) (fs w) ≫= decode with
        | Some _ => r = Raise (AtResize (16, 16)) FS.OSError
        | None => exists e, r = Raise (AtOpen "public/icon-192.png") e
        end
    end.
Proof.
  intros Hbase Hrun. pose proof (main_outcome w) as H. rewrite Hrun in H.
  apply outcome_inv in H as [(e & Hm & -> & ->)|[(n & e & Hm & Hl & -> & ->)|
    (n & base & d & Hm & Hl & Hd & Hcases)]].
  - exists []. rewrite Hm, app_nil_r. by split_and!.
  - exists [EMakedirs "public/icons"]. rewrite Hm. split_and!; try done.
    + intros q. cbn [fs log set_fs].
      by apply makedirs_file_at with icons_dir true.
    + destruct (FS.file_at (FS.split_path base_path) (fs w) ≫= decode)
        as [im|] eqn:E; [|by exists e].
      apply bind_Some in E as (bs & Hf & Hdec).
      assert (load n = inr im) as Hl'.
      { apply load_inr. exists bs.
        by rewrite (makedirs_file_at _ _ _ _ _ Hm). }
      congruence.
  - apply load_inr in Hl as (bs & Hf & Hdec).
    rewrite (makedirs_file_at _ _ _ _ _ Hm) in Hf.
    pose proof (Hbase bs base Hf Hdec) as Hload.
    assert (r = Raise (AtResize (16, 16)) FS.OSError /\ w' = ready n w)
      as [-> ->].
    { destruct Hcases as [(B & _ & _)|
        (pre & s & k & rest & Ho & Hpre & Hs & -> & ->)].
      - pose proof (first_stop_None _ _ _ _ B 16) as C.
        rewrite check_NoPixels in C by done.
        discriminate C. apply list_elem_of_here.
      - rewrite check_NoPixels in Hs by done. injection Hs as <-.
        destruct pre as [|x pre].
        + injection Ho as <- _. split; [done|].
          cbn [foldl halt]. by apply after_nil.
        + specialize (Hpre x (list_elem_of_here _ _)).
          by rewrite check_NoPixels in Hpre. }
    exists [EMakedirs "public/icons"; EOpen base_path].
    rewrite Hm, Hf. cbn [mbind option_bind]. rewrite Hdec.
    split_and!; try done.
    + unfold ready, log, set_fs. cbn [trace]. by rewrite <- app_assoc.
    + intros q. cbn [fs ready log set_fs].
      by apply makedirs_file_at with icons_dir true.
Qed.

Lemma undecodable_base_aborts_witness :
  @base_undecodable sample_imaging (fs (sample_world tree_damaged)) /\
  main (sample_world tree_damaged)
  = (Raise (AtResize (16, 16)) FS.OSError,
     (main (sample_world tree_damaged)).2) /\
  exists t,
    trace (main (sample_world tree_damaged)).2
    = trace (sample_world tree_damaged) ++ t /\
    resize_sources t = [] /\ saved_paths t = [] /\
    stdout (main (sample_world tree_damaged)).2
    = stdout (sample_world tree_damaged) /\
    (forall q, FS.file_at q (fs (main (sample_world tree_damaged)).2)
               = FS.file_at q (fs (sample_world tree_damaged))).
Proof.
  assert (Hbase : @base_undecodable sample_imaging
                    (fs (sample_world tree_damaged))).
  { intros bs im Hbs Hdec. vm_compute in Hbs. injection Hbs as <-.
    vm_compute in Hdec. injection Hdec as <-. reflexivity. }
  assert (Hrun : main (sample_world tree_damaged)
                 = (Raise (AtResize (16, 16)) FS.OSError,
                    (main (sample_world tree_damaged)).2))
    by (apply run_result; vm_compute; reflexivity).
  split; [exact Hbase|]. split; [exact Hrun|].
  destruct (undecodable_base_aborts (sample_world tree_damaged) _ _ Hbase Hrun)
    as (t & Ht & Hr & Hs & Ho & Hf & _).
  exists t. split; [exact Ht|]. split; [exact Hr|]. split; [exact Hs|].
  split; [exact Ho|exact Hf].
Defined.

(** C3, as stated, fails, in two ways.  With no base image and a regular
    file at public/icons, it is [os.makedirs] that raises, and the load
    step is never reached.  With a base image whose header opens and
    whose pixel data does not load, [Image.open] succeeds and it is the
    first [resize] that raises. *)
Lemma load_error_counterexample :
  (FS.stat (FS.split_path base_path) (fs (sample_world tree_icons_is_file))
   = FS.ENOENT /\
   main (sample_world tree_icons_is_file)
   = (Raise (AtMakedirs "public/icons") FS.FileExistsError,
      sample_world tree_icons_is_file)) /\
  (FS.file_at (FS.split_path base_path) (fs (sample_world tree_damaged))
   = Some damaged_base /\
   (exists im, sample_decode damaged_base = Some im /\
               sample_loadable im = false) /\
   (main (sample_world tree_damaged)).1
   = Raise (AtResize (16, 16)) FS.OSError /\
   opened_paths (trace (main (sample_world tree_damaged)).2)
   = ["public/icon-192.png"]).
Proof.
  split; [by vm_compute|]. split_and!; [by vm_compute| |by vm_compute..].
  eexists. by vm_compute.
Qed.

(** C4: a save that fails ends the run at once.  With the sizes taken in
    the order the script reaches them (16, 32, 48, 128, 64), a run that
    ends with an exception from the save for some size, whatever the
    exception, has written and confirmed exactly the sizes before it; the
    failing save is not completed or tried again; and for every later size
    no save happens and the file at its path is as it was before the
    run. *)
Theorem failed_save_aborts_rest `{PIL : Imaging} (w w' : world)
    (p : string) (e : FS.exn) :
  main w = (Raise (AtSave p) e, w') ->
  exists pre s rest t,
    [16; 32; 48; 128; 64] = pre ++ s :: rest /\
    p = icon_path s /\
    trace w' = trace w ++ t /\
    saved_paths t = map icon_path pre /\
    stdout w' = stdout w ++ map created pre /\
    (icon_path s ∉ saved_paths t) /\
    forall x, x ∈ rest ->
      (icon_path x ∉ saved_paths t) /\
      FS.file_at (FS.split_path (icon_path x)) (fs w')
      = FS.file_at (FS.split_path (icon_path x)) (fs w).
Proof.
  intros Hrun. pose proof (main_outcome w) as H. rewrite Hrun in H.
  apply outcome_inv in H as [(e' & _ & ? & _)|[(n & e' & _ & _ & ? & _)|
    (n & base & d & Hm & Hl & Hd &
     [(_ & ? & _)|(pre & s & k & rest & Ho & Hpre & Hs & Hr & ->)])]];
    try done.
  assert (p = icon_path s /\ (k = NameTaken \/ k = NoEncoder)) as [-> Hk].
  { destruct k; try done; injection Hr as <- _; split; auto. }
  pose proof order_NoDup as Hnd. rewrite Ho in Hnd.
  apply NoDup_app in Hnd as (_ & Hdis & Hnd').
  apply NoDup_cons in Hnd' as (Hsr & _).
  assert (forall x, x ∈ pre ++ s :: rest -> x ∈ all_sizes) as Hknown.
  { rewrite <- Ho. apply order_known. }
  assert (forall x, x ∈ s :: rest ->
            icon_path x ∉ map icon_path pre) as Hnot.
  { intros x Hx (y & Hy & Hin%list_elem_of_In)%list_elem_of_In%in_map_iff.
    apply (Hdis y Hin).
    rewrite (icon_path_inj y x); [done| |by apply Hknown, elem_of_app; right|done].
    apply Hknown, elem_of_app. by left. }
  exists pre, s, rest,
    ([EMakedirs "public/icons"; EOpen base_path]
     ++ flat_map (step_events base) pre ++ [EResize base (s, s) LANCZOS]).
  assert (saved_paths
            ([EMakedirs "public/icons"; EOpen base_path]
             ++ flat_map (step_events base) pre
             ++ [EResize base (s, s) LANCZOS]) = map icon_path pre) as Hsaved.
  { rewrite !saved_paths_app, saved_paths_steps. cbn. by rewrite app_nil_r. }
  rewrite Hsaved. split_and!; [done|done| | done | | |].
  - rewrite halt_trace, after_trace, <- !app_assoc.
    by destruct Hk as [-> | ->].
  - by rewrite halt_stdout.
  - apply Hnot. by left.
  - intros x Hx. split; [apply Hnot; by right|].
    assert (x ∈ all_sizes) as Hxk.
    { apply Hknown, elem_of_app. right. by right. }
    assert (icon_name x ≠ icon_name s) as Hxs.
    { intros E. apply Hsr.
      rewrite <- (icon_name_inj x s); [done|done| |done].
      apply Hknown, elem_of_app. right. by left. }
    rewrite (halt_tree base d pre s k n w Hd), (file_at_icon n d _ x Hd Hxk).
    rewrite <- (makedirs_file_at _ _ _ _ _ Hm).
    rewrite (file_at_icon_before n d x Hd Hxk).
    assert (foldl (store base) d pre !! icon_name x = d !! icon_name x) as E.
    { apply foldl_store_other. intros y Hy Ey. apply (Hdis y Hy).
      rewrite (icon_name_inj y x); [by right| |done..].
      apply Hknown, elem_of_app. by left. }
    destruct Hk as [-> | ->]; [by rewrite E|].
    by rewrite emptied_other, E.
Qed.

Lemma failed_save_aborts_rest_witness :
  main (sample_world tree_blocked)
  = (Raise (AtSave "public/icons/icon-48.png") FS.IsADirectoryError,
     (main (sample_world tree_blocked)).2) /\
  exists pre s rest t,
    [16; 32; 48; 128; 64] = pre ++ s :: rest /\
    "public/icons/icon-48.png" = icon_path s /\
    trace (main (sample_world tree_blocked)).2
    = trace (sample_world tree_blocked) ++ t /\
    saved_paths t = map icon_path pre /\
    stdout (main (sample_world tree_blocked)).2
    = stdout (sample_world tree_blocked) ++ map created pre /\
    (icon_path s ∉ saved_paths t) /\
    forall x, x ∈ rest ->
      (icon_path x ∉ saved_paths t) /\
      FS.file_at (FS.split_path (icon_path x))
        (fs (main (sample_world tree_blocked)).2)
      = FS.file_at (FS.split_path (icon_path x))
          (fs (sample_world tree_blocked)).
Proof.
  assert (Hrun : main (sample_world tree_blocked)
                 = (Raise (AtSave "public/icons/icon-48.png")
                      FS.IsADirectoryError,
                    (main (sample_world tree_blocked)).2))
    by (apply run_result; vm_compute; reflexivity).
  split; [exact Hrun|].
  exact (failed_save_aborts_rest (sample_world tree_blocked) _ _ _ Hrun).
Defined.

(** On that run the older 128-pixel icon and the stray file are still
    there, and the icons for 16 and 32 are new. *)
Example blocked_run_files :
  let n := fs (main (sample_world tree_blocked)).2 in
  FS.file_at ["public"; "icons"; "icon-128.png"] n = Some [Byte.x07] /\
  FS.file_at ["public"; "icons"; "notes.txt"] n = Some [Byte.x2a] /\
  FS.file_at ["public"; "icons"; "icon-64.png"] n = None /\
  FS.file_at ["public"; "icons"; "icon-16.png"] n
  = Some [Byte.x10; Byte.x10; Byte.x01; Byte.x02; Byte.x03].
Proof. by vm_compute. Qed.

(** A save can also fail in the encoder.  The run ends there as well; the
    older 16-pixel icon, already opened for writing, is left empty, and no
    later icon is created. *)
Example refused_by_encoder :
  (main (sample_world tree_cmyk)).1
  = Raise (AtSave "public/icons/icon-16.png") FS.OSError /\
  let n := fs (main (sample_world tree_cmyk)).2 in
  FS.file_at ["public"; "icons"; "icon-16.png"] n = Some [] /\
  FS.file_at ["public"; "icons"; "icon-32.png"] n = None /\
  stdout (main (sample_world tree_cmyk)).2 = [].
Proof. by vm_compute. Qed.

(** C5: [os.makedirs('public/icons', exist_ok=True)] by the status of the
    path.  Absent: the directory is created, empty, and every regular file
    and every directory that was there is still there.  Already a
    directory: the call does not fail and the whole tree, the entries of
    public/icons among it, is unchanged.  (In the two remaining cases, a
    regular file at the path or on the way to it, the call raises and
    changes nothing.) *)
Theorem makedirs_creates_or_keeps `{PIL : Imaging} (w : world) :
  match FS.stat icons_dir (fs w) with
  | FS.ENOENT =>
      exists n,
        os_makedirs "public/icons" true w
        = (Ok tt, log (EMakedirs "public/icons") (set_fs n w)) /\
        FS.dir_at icons_dir n = Some ∅ /\
        (forall q, FS.file_at q n = FS.file_at q (fs w)) /\
        (forall q, is_Some (FS.dir_at q (fs w)) -> is_Some (FS.dir_at q n))
  | FS.Found (FS.Dir d) =>
      exists w',
        os_makedirs "public/icons" true w = (Ok tt, w') /\
        fs w' = fs w /\ FS.dir_at icons_dir (fs w') = Some d
  | FS.Found (FS.File _) =>
      os_makedirs "public/icons" true w
      = (Raise (AtMakedirs "public/icons") FS.FileExistsError, w)
  | FS.ENOTDIR =>
      os_makedirs "public/icons" true w
      = (Raise (AtMakedirs "public/icons") FS.NotADirectoryError, w)
  end.
Proof.
  unfold os_makedirs. change (FS.split_path "public/icons") with icons_dir.
  destruct (FS.stat icons_dir (fs w)) as [[bs|d]| |] eqn:E.
  - by rewrite (makedirs_file _ _ _ _ E).
  - apply dir_at_stat in E. rewrite (makedirs_exists _ _ _ E).
    eexists. split; [done|]. by split.
  - destruct (makedirs_absent _ true _ E) as (n & Hm & Hd).
    exists n. rewrite Hm. split_and!; [done|done| |].
    + intros q. by apply makedirs_file_at with icons_dir true.
    + intros q. by apply makedirs_keeps_dirs with icons_dir true.
  - by rewrite (makedirs_enotdir _ _ _ E).
Qed.

(** The two cases of C5 on sample trees: created in an empty working
    directory; kept, with its content, when it is there. *)
Example makedirs_on_empty :
  (os_makedirs "public/icons" true (sample_world tree_empty)).1 = Ok tt /\
  FS.dir_at icons_dir
    (fs (os_makedirs "public/icons" true (sample_world tree_empty)).2)
  = Some ∅.
Proof. by vm_compute. Qed.

Example makedirs_on_used :
  (os_makedirs "public/icons" true (sample_world tree_used)).1 = Ok tt /\
  fs (os_makedirs "public/icons" true (sample_world tree_used)).2 = tree_used /\
  FS.file_at ["public"; "icons"; "notes.txt"]
    (fs (os_makedirs "public/icons" true (sample_world tree_used)).2)
  = Some [Byte.x2a].
Proof. by vm_compute. Qed.

(** C8: when public/icons is absent and the base image is missing (or
    does not decode), the run aborts at [Image.open], and by then the
    directory has been created: the tree the run leaves behind has
    public/icons, empty, and so differs from the tree it started in. *)
Theorem directory_created_before_load_fails `{PIL : Imaging} (w : world) :
  FS.stat icons_dir (fs w) = FS.ENOENT ->
  base_unusable (fs w) ->
  exists e w',
    main w = (Raise (AtOpen base_path) e, w') /\
    FS.dir_at icons_dir (fs w') = Some ∅ /\
    fs w' ≠ fs w.
Proof.
  intros Habs Hbase.
  destruct (makedirs_absent _ true _ Habs) as (n & Hm & Hd).
  pose proof (main_outcome w) as H.
  inversion H as [e Hm' Heq| n' e Hm' Hl Heq | n' base d Hm' Hl Hd' Heq].
  - congruence.
  - assert (n' = n) as -> by congruence.
    exists e, (log (EMakedirs "public/icons") (set_fs n w)).
    split_and!; [done|done|].
    cbn [fs log set_fs]. intros ->.
    apply dir_at_stat in Hd. congruence.
  - assert (n' = n) as -> by congruence.
    apply load_inr in Hl as (bs & Hf & Hdec).
    rewrite (makedirs_file_at _ _ _ _ _ Hm) in Hf.
    specialize (Hbase bs Hf). congruence.
Qed.

Lemma directory_created_before_load_fails_witness :
  FS.stat icons_dir (fs (sample_world tree_empty)) = FS.ENOENT /\
  @base_unusable sample_imaging (fs (sample_world tree_empty)) /\
  exists e w',
    main (sample_world tree_empty) = (Raise (AtOpen base_path) e, w') /\
    FS.dir_at icons_dir (fs w') = Some ∅ /\
    fs w' ≠ fs (sample_world tree_empty).
Proof.
  assert (Habs : FS.stat icons_dir (fs (sample_world tree_empty)) = FS.ENOENT)
    by (vm_compute; reflexivity).
  assert (Hbase : @base_unusable sample_imaging (fs (sample_world tree_empty)))
    by (intros bs Hbs; vm_compute in Hbs; discriminate Hbs).
  split; [exact Habs|]. split; [exact Hbase|].
  exact (directory_created_before_load_fails (sample_world tree_empty)
           Habs Hbase).
Defined.

(** C6: what a run touches.  It opens one path, public/icon-192.png, and
    nothing else; it saves only to the five icon paths, and a run that
    completes saves to each of them exactly once and leaves at each the
    file it saved; every regular file at another path is as it was; and,
    standard output being the same, neither the outcome nor the effects
    depend on the arguments or the environment variables of the process,
    which the run leaves alone. *)
Theorem io_footprint `{PIL : Imaging} (w w' : world) (r : result unit) :
  main w = (r, w') ->
  (exists t,
     trace w' = trace w ++ t /\
     (opened_paths t = [] \/ opened_paths t = ["public/icon-192.png"]) /\
     (forall p, p ∈ saved_paths t -> p ∈ map icon_path all_sizes) /\
     (r = Ok tt ->
      opened_paths t = ["public/icon-192.png"] /\
      saved_paths t ≡ₚ
        ["public/icons/icon-16.png"; "public/icons/icon-32.png";
         "public/icons/icon-48.png"; "public/icons/icon-64.png";
         "public/icons/icon-128.png"] /\
      forall s, s ∈ all_sizes ->
        exists im,
          (icon_path s, im) ∈ saved_images t /\
          FS.file_at (FS.split_path (icon_path s)) (fs w')
          = Some (encode_png im))) /\
  (forall q, q ∉ output_paths -> FS.file_at q (fs w') = FS.file_at q (fs w)) /\
  (forall a v, main (with_args a v w) = (r, with_args a v w')).
Proof.
  intros Hrun. split_and!.
  - pose proof (main_outcome w) as H. rewrite Hrun in H.
    apply outcome_inv in H as [(e & Hm & -> & ->)|[(n & e & Hm & Hl & -> & ->)|
      (n & base & d & Hm & Hl & Hd &
       [(B & -> & ->)|(pre & s & k & rest & Ho & Hpre & Hs & -> & ->)])]].
    + exists []. rewrite app_nil_r. split_and!; [done|by left| |done].
      intros p Hp. by apply elem_of_nil in Hp.
    + exists [EMakedirs "public/icons"]. split_and!; [done|by left| |done].
      intros p Hp. by apply elem_of_nil in Hp.
    + exists ([EMakedirs "public/icons"; EOpen base_path]
              ++ flat_map (step_events base) order).
      split_and!.
      * apply after_trace.
      * right. by rewrite !opened_paths_app, opened_paths_steps.
      * rewrite !saved_paths_app, saved_paths_steps.
        intros p. apply saved_path_known, order_known.
      * intros _. split_and!.
        -- by rewrite !opened_paths_app, opened_paths_steps.
        -- rewrite !saved_paths_app, saved_paths_steps.
           cbn [saved_paths omap app].
           change (map icon_path order ≡ₚ map icon_path all_sizes).
           apply Permutation_map, order_all_sizes.
        -- intros s Hs. exists (icon base s). split.
           ++ rewrite saved_images_app, saved_images_steps.
              apply elem_of_app. right. apply list_elem_of_In, in_map_iff.
              exists s. split; [done|]. by apply list_elem_of_In, known_order.
           ++ apply (file_at_after_saved base order d);
                [done|done|apply order_known|by apply known_order].
    + exists ([EMakedirs "public/icons"; EOpen base_path]
              ++ flat_map (step_events base) pre
              ++ match k with
                 | NoPixels => []
                 | NameTaken | NoEncoder => [EResize base (s, s) LANCZOS]
                 | NoGlyph => [EResize base (s, s) LANCZOS;
                               ESave (icon_path s) (icon base s)]
                 end).
      split_and!.
      * by rewrite halt_trace, after_trace, <- !app_assoc.
      * right. rewrite !opened_paths_app, opened_paths_steps. by destruct k.
      * rewrite !saved_paths_app, saved_paths_steps.
        intros p [Hp|[Hp|Hp]%elem_of_app]%elem_of_app.
        -- by apply elem_of_nil in Hp.
        -- revert Hp. apply saved_path_known. intros x Hx.
           apply order_known. rewrite Ho. apply elem_of_app. by left.
        -- assert (p = icon_path s) as ->.
           { destruct k; cbn in Hp; try by apply elem_of_nil in Hp.
             by apply list_elem_of_singleton in Hp. }
           apply list_elem_of_In, in_map, list_elem_of_In, order_known.
           rewrite Ho. apply elem_of_app. right. by left.
      * by destruct k.
  - intros q Hq. by apply main_frame with r.
  - intros a v. rewrite ignores_args_main. by rewrite Hrun.
Qed.

Lemma io_footprint_witness :
  main (sample_world tree_used) = (Ok tt, (main (sample_world tree_used)).2) /\
  FS.file_at ["public"; "icons"; "notes.txt"]
    (fs (main (sample_world tree_used)).2) = Some [Byte.x2a] /\
  main (with_args ["--size"; "256"] {[ "ICON_SIZE" := "256" ]}
          (sample_world tree_used))
  = (Ok tt, with_args ["--size"; "256"] {[ "ICON_SIZE" := "256" ]}
              (main (sample_world tree_used)).2).
Proof.
  assert (Hrun : main (sample_world tree_used)
                 = (Ok tt, (main (sample_world tree_used)).2))
    by (apply run_result; vm_compute; reflexivity).
  destruct (io_footprint (sample_world tree_used) _ _ Hrun)
    as (_ & Hframe & Hargs).
  split; [exact Hrun|]. split.
  - rewrite (Hframe ["public"; "icons"; "notes.txt"]).
    + vm_compute. reflexivity.
    + intros H. apply (bool_decide_pack _) in H. vm_compute in H. exact H.
  - apply Hargs.
Defined.

(** C7: the output files are a function of the base image alone.  Two
    completed runs, started in any two worlds that hold the same bytes at
    public/icon-192.png, leave byte-for-byte the same file at each of the
    five icon paths; and a second run, started where a completed run
    ended, completes and changes nothing in the tree.  (Decoding,
    resampling and encoding are functions in the interface: Pillow is
    taken to compute, not to draw lots.) *)
Theorem outputs_determined_by_base `{PIL : Imaging} (w1 w2 w1' w2' : world) :
  FS.file_at (FS.split_path base_path) (fs w1)
  = FS.file_at (FS.split_path base_path) (fs w2) ->
  main w1 = (Ok tt, w1') ->
  main w2 = (Ok tt, w2') ->
  (forall s, s ∈ all_sizes ->
     exists bs,
       FS.file_at (FS.split_path (icon_path s)) (fs w1') = Some bs /\
       FS.file_at (FS.split_path (icon_path s)) (fs w2') = Some bs) /\
  (exists w1'', main w1' = (Ok tt, w1'') /\ fs w1'' = fs w1').
Proof.
  intros Hsame Hrun1 Hrun2. split; [|by apply rerun_same_tree with w1].
  intros s Hs.
  pose proof (main_outcome w1) as H1. rewrite Hrun1 in H1.
  pose proof (main_outcome w2) as H2. rewrite Hrun2 in H2.
  apply outcome_ok in H1 as (n1 & b1 & d1 & Hm1 & Hl1 & Hd1 & _ & ->).
  apply outcome_ok in H2 as (n2 & b2 & d2 & Hm2 & Hl2 & Hd2 & _ & ->).
  apply load_inr in Hl1 as (bs1 & Hf1 & Hdec1).
  apply load_inr in Hl2 as (bs2 & Hf2 & Hdec2).
  rewrite (makedirs_file_at _ _ _ _ _ Hm1) in Hf1.
  rewrite (makedirs_file_at _ _ _ _ _ Hm2) in Hf2.
  assert (b1 = b2) as <- by congruence.
  exists (encode_png (icon b1 s)).
  split; apply file_at_after_saved;
    [done|done|apply order_known|by apply known_order
    |done|done|apply order_known|by apply known_order].
Qed.

Lemma outputs_determined_by_base_witness :
  FS.file_at (FS.split_path base_path) (fs (sample_world tree0))
  = FS.file_at (FS.split_path base_path) (fs (sample_world tree_used)) /\
  (exists bs,
     FS.file_at (FS.split_path (icon_path 16))
       (fs (main (sample_world tree0)).2) = Some bs /\
     FS.file_at (FS.split_path (icon_path 16))
       (fs (main (sample_world tree_used)).2) = Some bs) /\
  (exists w1'', main (main (sample_world tree0)).2 = (Ok tt, w1'') /\
                fs w1'' = fs (main (sample_world tree0)).2).
Proof.
  assert (Hsame :
    FS.file_at (FS.split_path base_path) (fs (sample_world tree0))
    = FS.file_at (FS.split_path base_path) (fs (sample_world tree_used)))
    by (vm_compute; reflexivity).
  assert (Hrun1 : main (sample_world tree0)
                  = (Ok tt, (main (sample_world tree0)).2))
    by (apply run_result; vm_compute; reflexivity).
  assert (Hrun2 : main (sample_world tree_used)
                  = (Ok tt, (main (sample_world tree_used)).2))
    by (apply run_result; vm_compute; reflexivity).
  destruct (outputs_determined_by_base _ _ _ _ Hsame Hrun1 Hrun2)
    as [Hfiles Hagain].
  split; [exact Hsame|]. split; [|exact Hagain].
  apply Hfiles. apply list_elem_of_here.
Defined.

(** C9: the base image is opened once, and every bitmap the run handles
    comes from it directly.  Whatever the outcome, the file at
    public/icon-192.png is as it was.  A run that got past [Image.open]
    opened that one path once; every resize took the decoded base image
    as its source; every bitmap saved is [resize] of the base image to its
    own size, with the Lanczos filter.  A run that completes does so five
    times, for 16, 32, 48, 128 and 64. *)
Theorem base_opened_once_never_replaced `{PIL : Imaging} (w w' : world)
    (r : result unit) :
  main w = (r, w') ->
  FS.file_at (FS.split_path base_path) (fs w')
  = FS.file_at (FS.split_path base_path) (fs w) /\
  exists t,
    trace w' = trace w ++ t /\
    ((r ≠ Ok tt /\ opened_paths t = [] /\ resize_sources t = [] /\
      saved_images t = [])
     \/
     exists bs base written,
       FS.file_at (FS.split_path base_path) (fs w) = Some bs /\
       decode bs = Some base /\
       opened_paths t = ["public/icon-192.png"] /\
       (forall src, src ∈ resize_sources t -> src = base) /\
       saved_images t
       = map (fun s => (icon_path s, resize base (s, s) LANCZOS)) written /\
       written `prefix_of` [16; 32; 48; 128; 64] /\
       (r = Ok tt ->
        written = [16; 32; 48; 128; 64] /\
        resize_sources t = [base; base; base; base; base])).
Proof.
  intros Hrun. split; [by apply main_frame with r, base_not_output|].
  pose proof (main_outcome w) as H. rewrite Hrun in H.
  apply outcome_inv in H as [(e & Hm & -> & ->)|[(n & e & Hm & Hl & -> & ->)|
    (n & base & d & Hm & Hl & Hd &
     [(B & -> & ->)|(pre & s & k & rest & Ho & Hpre & Hs & -> & ->)])]].
  - exists []. rewrite app_nil_r. split; [done|]. by left.
  - exists [EMakedirs "public/icons"]. split; [done|]. by left.
  - apply load_inr in Hl as (bs & Hf & Hdec).
    rewrite (makedirs_file_at _ _ _ _ _ Hm) in Hf.
    exists ([EMakedirs "public/icons"; EOpen base_path]
            ++ flat_map (step_events base) order).
    split; [apply after_trace|].
    right. exists bs, base, order. split_and!; [done|done| | | |done|].
    + by rewrite !opened_paths_app, opened_paths_steps.
    + rewrite !resize_sources_app, resize_sources_steps.
      intros src [Hsrc|Hsrc]%elem_of_app; [by apply elem_of_nil in Hsrc|].
      by apply list_elem_of_In, in_map_iff in Hsrc as (x & <- & _).
    + by rewrite !saved_images_app, saved_images_steps.
    + intros _. split; [done|].
      by rewrite !resize_sources_app, resize_sources_steps.
  - apply load_inr in Hl as (bs & Hf & Hdec).
    rewrite (makedirs_file_at _ _ _ _ _ Hm) in Hf.
    exists ([EMakedirs "public/icons"; EOpen base_path]
            ++ flat_map (step_events base) pre
            ++ match k with
               | NoPixels => []
               | NameTaken | NoEncoder => [EResize base (s, s) LANCZOS]
               | NoGlyph => [EResize base (s, s) LANCZOS;
                             ESave (icon_path s) (icon base s)]
               end).
    split; [by rewrite halt_trace, after_trace, <- !app_assoc|].
    right.
    exists bs, base, (match k with NoGlyph => pre ++ [s] | _ => pre end).
    split_and!; [done|done| | | | |by destruct k].
    + rewrite !opened_paths_app, opened_paths_steps. by destruct k.
    + rewrite !resize_sources_app, resize_sources_steps.
      intros src [Hsrc|[Hsrc|Hsrc]%elem_of_app]%elem_of_app.
      * by apply elem_of_nil in Hsrc.
      * by apply list_elem_of_In, in_map_iff in Hsrc as (x & <- & _).
      * destruct k; cbn in Hsrc; try by apply elem_of_nil in Hsrc.
        all: by apply list_elem_of_singleton in Hsrc.
    + rewrite !saved_images_app, saved_images_steps.
      destruct k; cbn [saved_images omap app]; rewrite ?app_nil_r; try done.
      by rewrite map_app.
    + unfold order, sizes in Ho. cbn [app] in Ho. rewrite Ho.
      destruct k; try by apply prefix_app_r.
      exists rest. by rewrite <- app_assoc.
Qed.

Lemma base_opened_once_never_replaced_witness :
  main (sample_world tree0) = (Ok tt, (main (sample_world tree0)).2) /\
  FS.file_at (FS.split_path base_path) (fs (main (sample_world tree0)).2)
  = FS.file_at (FS.split_path base_path) (fs (sample_world tree0)).
Proof.
  assert (Hrun : main (sample_world tree0)
                 = (Ok tt, (main (sample_world tree0)).2))
    by (apply run_result; vm_compute; reflexivity).
  split; [exact Hrun|].
  exact (proj1 (base_opened_once_never_replaced _ _ _ Hrun)).
Defined.

(** C10: the loop over 16, 32, 48, 128 followed by the separate 64 step
    and a single loop over 16, 32, 48, 64, 128 with the same body
    complete on the same worlds, and when they do they leave the same
    tree: the same files with the same contents. *)
Theorem split_loop_refines_single_loop `{PIL : Imaging} (w : world) :
  (forall w1, main w = (Ok tt, w1) ->
     exists w2, main_single_loop w = (Ok tt, w2) /\ fs w2 = fs w1) /\
  (forall w2, main_single_loop w = (Ok tt, w2) ->
     exists w1, main w = (Ok tt, w1) /\ fs w1 = fs w2).
Proof.
  split.
  - intros w1 Hrun. pose proof (main_outcome w) as H. rewrite Hrun in H.
    apply outcome_ok in H as (n & base & d & Hm & Hl & Hd & Hb & ->).
    pose proof (outcome_det _ _ _ _ _ _ (main_single_loop_outcome w) Hm Hl Hd)
      as Heq.
    unfold saves_outcome in Heq.
    replace (stdout_encoding (ready n w)) with (stdout_encoding w) in Heq
      by done.
    rewrite first_stop_free in Heq.
    + eexists. split; [exact Heq|].
      unfold after. cbn [fs]. by rewrite foldl_store_order.
    + intros s Hs. by apply (first_stop_None _ _ d order), known_order.
  - intros w2 Hrun. pose proof (main_single_loop_outcome w) as H.
    rewrite Hrun in H.
    apply outcome_ok in H as (n & base & d & Hm & Hl & Hd & Hb & ->).
    pose proof (outcome_det _ _ _ _ _ _ (main_outcome w) Hm Hl Hd) as Heq.
    unfold saves_outcome in Heq.
    replace (stdout_encoding (ready n w)) with (stdout_encoding w) in Heq
      by done.
    rewrite first_stop_free in Heq.
    + eexists. split; [exact Heq|].
      unfold after. cbn [fs]. by rewrite foldl_store_order.
    + intros s Hs. by apply (first_stop_None _ _ d all_sizes), order_known.
Qed.

Lemma split_loop_refines_single_loop_witness :
  main (sample_world tree_used) = (Ok tt, (main (sample_world tree_used)).2) /\
  exists w2,
    main_single_loop (sample_world tree_used) = (Ok tt, w2) /\
    fs w2 = fs (main (sample_world tree_used)).2.
Proof.
  assert (Hrun : main (sample_world tree_used)
                 = (Ok tt, (main (sample_world tree_used)).2))
    by (apply run_result; vm_compute; reflexivity).
  split; [exact Hrun|].
  exact (proj1 (split_loop_refines_single_loop (sample_world tree_used))
           _ Hrun).
Defined.

(** The two orders do differ in what is printed: the tree is the same,
    the sequence of confirmation lines is not. *)
Example single_loop_prints_in_list_order :
  fs (main_single_loop (sample_world tree0)).2
  = fs (main (sample_world tree0)).2 /\
  stdout (main_single_loop (sample_world tree0)).2
  ≠ stdout (main (sample_world tree0)).2.
Proof. split; vm_compute; [reflexivity|intros H; discriminate H]. Qed.

(** ** Further properties of the script *)

Section Stops.
Context `{PIL : Imaging}.
Implicit Types (w : world) (d : gmap string FS.node) (base : image).

(** The sizes the script reached before the one it stopped at have other
    file names. *)
Lemma before_stop_differs pre s rest x :
  order = pre ++ s :: rest -> x ∈ pre -> icon_name x ≠ icon_name s.
Proof.
  intros Ho Hx E.
  assert (x ∈ all_sizes) as Hxk.
  { apply order_known. rewrite Ho. apply elem_of_app. by left. }
  assert (s ∈ all_sizes) as Hsk.
  { apply order_known. rewrite Ho. apply elem_of_app. right. by left. }
  apply icon_name_inj in E; [|done..]. subst x.
  pose proof order_NoDup as N. rewrite Ho in N.
  apply NoDup_app in N as (_ & N & _). apply (N s Hx). by left.
Qed.

Lemma before_stop_known pre s rest x :
  order = pre ++ s :: rest -> x ∈ pre -> x ∈ all_sizes.
Proof.
  intros Ho Hx. apply order_known. rewrite Ho. apply elem_of_app. by left.
Qed.

Lemma stop_known pre s rest : order = pre ++ s :: rest -> s ∈ all_sizes.
Proof.
  intros Ho. apply order_known. rewrite Ho. apply elem_of_app. right. by left.
Qed.

(** The icons saved before a turn stopped the run are in the tree the
    run leaves. *)
Lemma halted_files base d pre s k rest n w x :
  FS.dir_at icons_dir n = Some d ->
  order = pre ++ s :: rest -> x ∈ pre ->
  FS.file_at (FS.split_path (icon_path x))
    (fs (halt base (foldl (store base) d pre) s k
           (after base pre d (ready n w))))
  = Some (encode_png (icon base x)).
Proof.
  intros Hd Ho Hx. rewrite halt_tree by done.
  assert (x ∈ all_sizes) as Hxk by by apply (before_stop_known pre s rest).
  rewrite (file_at_icon n d _ x Hd Hxk).
  assert (foldl (store base) d pre !! icon_name x
          = Some (FS.File (encode_png (icon base x)))) as L.
  { apply foldl_store_lookup; [done| |done].
    intros y Hy. by apply (before_stop_known pre s rest). }
  pose proof (before_stop_differs pre s rest x Ho Hx) as Hne.
  destruct k.
  - by rewrite L.
  - by rewrite L.
  - rewrite emptied_other by done. by rewrite L.
  - unfold store at 1. rewrite lookup_insert_ne by done. by rewrite L.
Qed.

(** The file of the size a turn stopped at, seen from the tree the run
    started in. *)
Lemma stopped_lookup base d pre s rest :
  order = pre ++ s :: rest ->
  foldl (store base) d pre !! icon_name s = d !! icon_name s.
Proof.
  intros Ho. apply foldl_store_other. intros x Hx.
  by apply (before_stop_differs pre s rest).
Qed.

(** The saves in the trace of the first two statements, and of a turn
    that stopped. *)
Lemma saved_paths_ready :
  saved_paths [EMakedirs "public/icons"; EOpen base_path] = [].
Proof. done. Qed.

Lemma saved_paths_halt base s k :
  saved_paths match k with
              | NoPixels => []
              | NameTaken | NoEncoder => [EResize base (s, s) LANCZOS]
              | NoGlyph => [EResize base (s, s) LANCZOS;
                            ESave (icon_path s) (icon base s)]
              end
  = match k with NoGlyph => [icon_path s] | _ => [] end.
Proof. by destruct k. Qed.

(** With a standard output that has ASCII only, no confirmation line can
    be printed. *)
Lemma created_not_ascii s : can_encode ASCII (created s) = false.
Proof. reflexivity. Qed.

End Stops.

(** X1: what a completed run needed.  If the script runs to its end, then
    public/icons was absent or a directory; public/icon-192.png was a
    regular file that [Image.open] accepts, whose pixel data loads and
    whose five icons the PNG encoder accepts; none of the five icon paths
    was a directory; and standard output could encode each of the five
    confirmation lines. *)
Theorem run_completes_only_if `{PIL : Imaging} (w w' : world) :
  main w = (Ok tt, w') ->
  (FS.stat icons_dir (fs w) = FS.ENOENT \/
   is_Some (FS.dir_at icons_dir (fs w))) /\
  (exists bs base,
     FS.file_at (FS.split_path base_path) (fs w) = Some bs /\
     decode bs = Some base /\
     loadable base = true /\
     forall s, s ∈ all_sizes ->
       encodable (resize base (s, s) LANCZOS) = true) /\
  (forall s, s ∈ all_sizes ->
     FS.dir_at (FS.split_path (icon_path s)) (fs w) = None) /\
  (forall s, s ∈ all_sizes ->
     can_encode (stdout_encoding w) (created s) = true).
Proof.
  intros Hrun. pose proof (main_outcome w) as H. rewrite Hrun in H.
  apply outcome_ok in H as (n & base & d & Hm & Hl & Hd & Hb & _).
  apply load_inr in Hl as (bs & Hf & Hdec).
  rewrite (makedirs_file_at _ _ _ _ _ Hm) in Hf.
  assert (forall s, s ∈ all_sizes ->
            loadable base = true /\ blocked d s = false /\
            encodable (icon base s) = true /\
            can_encode (stdout_encoding w) (created s) = true) as Hall.
  { intros s Hs. apply check_None.
    by apply (first_stop_None _ _ _ _ Hb), known_order. }
  assert (16 ∈ all_sizes) as H16 by apply list_elem_of_here.
  split_and!.
  - destruct (makedirs_result _ _ _ _ Hm Hd) as [[Habs _]|[_ Hd0]];
      [by left|right; by eexists].
  - exists bs, base. split_and!; [done|done|apply (Hall 16 H16)|].
    intros s Hs. apply (Hall s Hs).
  - intros s Hs. rewrite (known_path s Hs).
    destruct (makedirs_result _ _ _ _ Hm Hd) as [[Habs _]|[_ Hd0]].
    + unfold FS.dir_at. by rewrite (stat_app_enoent _ _ _ Habs).
    + rewrite (dir_at_app _ _ _ d Hd0), dir_at_cons.
      destruct (Hall s Hs) as (_ & Hfree & _). unfold blocked in Hfree.
      by destruct (d !! icon_name s) as [[bs'|es]|].
  - intros s Hs. apply (Hall s Hs).
Qed.

Lemma run_completes_only_if_witness :
  main (sample_world tree0) = (Ok tt, (main (sample_world tree0)).2) /\
  (FS.stat icons_dir (fs (sample_world tree0)) = FS.ENOENT \/
   is_Some (FS.dir_at icons_dir (fs (sample_world tree0)))) /\
  (exists bs (base : sample_image),
     FS.file_at (FS.split_path base_path) (fs (sample_world tree0)) = Some bs /\
     sample_decode bs = Some base /\
     sample_loadable base = true /\
     forall s, s ∈ all_sizes ->
       sample_encodable (sample_resize base (s, s) LANCZOS) = true) /\
  (forall s, s ∈ all_sizes ->
     FS.dir_at (FS.split_path (icon_path s)) (fs (sample_world tree0)) = None) /\
  (forall s, s ∈ all_sizes ->
     can_encode (stdout_encoding (sample_world tree0)) (created s) = true).
Proof.
  assert (Hrun : main (sample_world tree0)
                 = (Ok tt, (main (sample_world tree0)).2))
    by (apply run_result; vm_compute; reflexivity).
  split; [exact Hrun|].
  exact (run_completes_only_if (sample_world tree0) _ Hrun).
Defined.

(** X3: a failed save does not undo the earlier ones.  When the save for
    some size raises, the icons of all sizes the script reached before it
    are in the tree the run leaves behind, each holding the PNG encoding
    of the base image resized to its size. *)
Theorem partial_output_persists `{PIL : Imaging} (w w' : world)
    (p : string) (e : FS.exn) :
  main w = (Raise (AtSave p) e, w') ->
  exists bs base pre s rest,
    FS.file_at (FS.split_path base_path) (fs w) = Some bs /\
    decode bs = Some base /\
    [16; 32; 48; 128; 64] = pre ++ s :: rest /\
    p = icon_path s /\
    forall x, x ∈ pre ->
      FS.file_at (FS.split_path (icon_path x)) (fs w')
      = Some (encode_png (resize base (x, x) LANCZOS)).
Proof.
  intros Hrun. pose proof (main_outcome w) as H. rewrite Hrun in H.
  apply outcome_inv in H as [(e0 & _ & Hr & _)|[(n & e0 & _ & _ & Hr & _)|
    (n & base & d & Hm & Hl & Hd &
     [(_ & Hr & _)|(pre & s & k & rest & Ho & _ & _ & Hr & ->)])]];
    [discriminate Hr..|].
  apply load_inr in Hl as (bs & Hf & Hdec).
  rewrite (makedirs_file_at _ _ _ _ _ Hm) in Hf.
  exists bs, base, pre, s, rest. split_and!; [done|done|exact Ho| |].
  - destruct k; cbn [raised] in Hr; by injection Hr.
  - intros x Hx. by apply (halted_files base d pre s k rest).
Qed.

Lemma partial_output_persists_witness :
  main (sample_world tree_blocked)
  = (Raise (AtSave "public/icons/icon-48.png") FS.IsADirectoryError,
     (main (sample_world tree_blocked)).2) /\
  exists bs (base : sample_image) (pre : list Z) s rest,
    FS.file_at (FS.split_path base_path) (fs (sample_world tree_blocked))
    = Some bs /\
    sample_decode bs = Some base /\
    [16; 32; 48; 128; 64] = pre ++ s :: rest /\
    "public/icons/icon-48.png" = icon_path s /\
    forall x, x ∈ pre ->
      FS.file_at (FS.split_path (icon_path x))
        (fs (main (sample_world tree_blocked)).2)
      = Some (sample_encode (sample_resize base (x, x) LANCZOS)).
Proof.
  assert (Hrun : main (sample_world tree_blocked)
                 = (Raise (AtSave "public/icons/icon-48.png")
                      FS.IsADirectoryError,
                    (main (sample_world tree_blocked)).2))
    by (apply run_result; vm_compute; reflexivity).
  split; [exact Hrun|].
  exact (partial_output_persists (sample_world tree_blocked) _ _ _ Hrun).
Defined.

(** X4: a confirmation is printed only for a file that is there.  In
    every run, completed or not, each line the run printed is the
    confirmation of one of the five sizes, and the tree the run leaves
    behind has, at the path the line names, the PNG encoding of a bitmap
    of that size. *)
Theorem confirmations_truthful `{PIL : Imaging} (w w' : world)
    (r : result unit) :
  main w = (r, w') ->
  exists lines,
    stdout w' = stdout w ++ lines /\
    forall line, line ∈ lines ->
      exists s im,
        s ∈ all_sizes /\
        line = ("✓ Created " ++ icon_path s)%string /\
        size im = (s, s) /\
        FS.file_at (FS.split_path (icon_path s)) (fs w')
        = Some (encode_png im).
Proof.
  intros Hrun. pose proof (main_outcome w) as H. rewrite Hrun in H.
  apply outcome_inv in H as [(e0 & _ & _ & ->)|[(n & e0 & _ & _ & _ & ->)|
    (n & base & d & Hm & Hl & Hd &
     [(_ & _ & ->)|(pre & s & k & rest & Ho & _ & _ & _ & ->)])]].
  - exists []. rewrite app_nil_r. split; [done|].
    intros line Hl. by apply elem_of_nil in Hl.
  - exists []. split; [cbn [stdout log set_fs]; by rewrite app_nil_r|].
    intros line Hl. by apply elem_of_nil in Hl.
  - exists (map created order). split; [done|].
    intros line (s & <- & Hs%list_elem_of_In)%list_elem_of_In%in_map_iff.
    assert (s ∈ all_sizes) as Hk by by apply order_known.
    exists s, (icon base s). split_and!; [done|done| |].
    + apply resize_size; by apply known_positive.
    + apply (file_at_after_saved base order d);
        [done|done|apply order_known|done].
  - exists (map created pre). split; [by rewrite halt_stdout|].
    intros line (s0 & <- & Hs%list_elem_of_In)%list_elem_of_In%in_map_iff.
    assert (s0 ∈ all_sizes) as Hk by by apply (before_stop_known pre s rest).
    exists s0, (icon base s0). split_and!; [done|done| |].
    + apply resize_size; by apply known_positive.
    + by apply (halted_files base d pre s k rest).
Qed.

Lemma confirmations_truthful_witness :
  main (sample_world tree_blocked)
  = (Raise (AtSave "public/icons/icon-48.png") FS.IsADirectoryError,
     (main (sample_world tree_blocked)).2) /\
  exists lines,
    stdout (main (sample_world tree_blocked)).2
    = stdout (sample_world tree_blocked) ++ lines /\
    forall line, line ∈ lines ->
      exists s (im : sample_image),
        s ∈ all_sizes /\
        line = ("✓ Created " ++ icon_path s)%string /\
        fst im = (s, s) /\
        FS.file_at (FS.split_path (icon_path s))
          (fs (main (sample_world tree_blocked)).2)
        = Some (sample_encode im).
Proof.
  assert (Hrun : main (sample_world tree_blocked)
                 = (Raise (AtSave "public/icons/icon-48.png")
                      FS.IsADirectoryError,
                    (main (sample_world tree_blocked)).2))
    by (apply run_result; vm_compute; reflexivity).
  split; [exact Hrun|].
  exact (confirmations_truthful (sample_world tree_blocked) _ _ Hrun).
Defined.

(** X5: a run removes nothing.  Whatever the outcome, every path that
    held a regular file before the run holds one after it (with new
    content only at an icon path), and every directory is still a
    directory. *)
Theorem nothing_removed `{PIL : Imaging} (w w' : world) (r : result unit)
    (q : list string) :
  main w = (r, w') ->
  (is_Some (FS.file_at q (fs w)) -> is_Some (FS.file_at q (fs w'))) /\
  (is_Some (FS.dir_at q (fs w)) -> is_Some (FS.dir_at q (fs w'))).
Proof.
  intros Hrun. pose proof (main_outcome w) as H. rewrite Hrun in H.
  apply final_tree in H as [->|(n & d & d' & Hm & Hd & Ho & ->)];
    [done| |apply order_known].
  split; intros Hq.
  - apply (icons_only_files n d d'); [done..|].
    by rewrite (makedirs_file_at _ _ _ _ q Hm).
  - apply (icons_only_dirs n d d'); [done..|].
    by apply makedirs_keeps_dirs with icons_dir true (fs w).
Qed.

Lemma nothing_removed_witness :
  main (sample_world tree_blocked)
  = (Raise (AtSave "public/icons/icon-48.png") FS.IsADirectoryError,
     (main (sample_world tree_blocked)).2) /\
  is_Some (FS.file_at ["public"; "icons"; "notes.txt"]
             (fs (main (sample_world tree_blocked)).2)) /\
  is_Some (FS.dir_at ["public"; "icons"; "icon-48.png"]
             (fs (main (sample_world tree_blocked)).2)).
Proof.
  assert (Hrun : main (sample_world tree_blocked)
                 = (Raise (AtSave "public/icons/icon-48.png")
                      FS.IsADirectoryError,
                    (main (sample_world tree_blocked)).2))
    by (apply run_result; vm_compute; reflexivity).
  split; [exact Hrun|]. split.
  - apply (nothing_removed (sample_world tree_blocked) _ _ _ Hrun).
    vm_compute. eexists. reflexivity.
  - apply (nothing_removed (sample_world tree_blocked) _ _ _ Hrun).
    vm_compute. eexists. reflexivity.
Defined.

(** X6: the only directories a run creates are public and public/icons.
    Every directory of the tree a run leaves behind was a directory
    before the run, unless it is one of those two (or the working
    directory itself). *)
Theorem only_icon_directories_created `{PIL : Imaging} (w w' : world)
    (r : result unit) (q : list string) :
  main w = (r, w') ->
  is_Some (FS.dir_at q (fs w')) ->
  is_Some (FS.dir_at q (fs w)) \/ q `prefix_of` ["public"; "icons"].
Proof.
  intros Hrun Hq. pose proof (main_outcome w) as H. rewrite Hrun in H.
  apply final_tree in H as [E|(n & d & d' & Hm & Hd & Ho & E)];
    [| |apply order_known]; rewrite E in Hq.
  - by left.
  - apply (icons_only_dirs n d d') in Hq; [|done..].
    by apply (makedirs_new_dirs icons_dir true (fs w) n).
Qed.

Lemma only_icon_directories_created_witness :
  main (sample_world tree0) = (Ok tt, (main (sample_world tree0)).2) /\
  is_Some (FS.dir_at ["public"; "icons"] (fs (main (sample_world tree0)).2)) /\
  (is_Some (FS.dir_at ["public"; "icons"] (fs (sample_world tree0))) \/
   ["public"; "icons"] `prefix_of` ["public"; "icons"]).
Proof.
  assert (Hrun : main (sample_world tree0)
                 = (Ok tt, (main (sample_world tree0)).2))
    by (apply run_result; vm_compute; reflexivity).
  assert (Hq : is_Some (FS.dir_at ["public"; "icons"]
                          (fs (main (sample_world tree0)).2)))
    by (vm_compute; eexists; reflexivity).
  split; [exact Hrun|]. split; [exact Hq|].
  exact (only_icon_directories_created (sample_world tree0) _ _ _ Hrun Hq).
Defined.

(** X7: the loop body does not make the directory it saves into.  Run in
    a world where public/icons is absent, one turn of the loop resizes,
    then raises [FileNotFoundError] at the save; the tree is untouched
    and nothing is printed.  (When the pixel data of the base image does
    not load, the turn ends before that, at the resize.)  This is what
    line 5 of the script is for. *)
Theorem save_needs_directory `{PIL : Imaging} (base : image) (s : Z)
    (w : world) :
  s ∈ all_sizes ->
  FS.stat icons_dir (fs w) = FS.ENOENT ->
  loop_body base s w
  = if loadable base
    then (Raise (AtSave (icon_path s)) FS.FileNotFoundError,
          log (EResize base (s, s) LANCZOS) w)
    else (Raise (AtResize (s, s)) FS.OSError, w).
Proof.
  intros Hs Habs. unfold loop_body, bind, Image_resize, Image_save.
  fold (icon_path s). destruct (loadable base); [|done].
  replace (fs (log (EResize base (s, s) LANCZOS) w)) with (fs w) by done.
  by rewrite (known_path s Hs), (write_missing_parent _ _ _ _ Habs).
Qed.

Lemma save_needs_directory_witness :
  32 ∈ all_sizes /\
  FS.stat icons_dir (fs (sample_world tree0)) = FS.ENOENT /\
  loop_body (((192, 192), [Byte.x01]) : @image sample_imaging) 32
    (sample_world tree0)
  = (Raise (AtSave (icon_path 32)) FS.FileNotFoundError,
     log (EResize (((192, 192), [Byte.x01]) : @image sample_imaging)
            (32, 32) LANCZOS)
       (sample_world tree0)).
Proof.
  assert (H32 : 32 ∈ all_sizes)
    by (apply list_elem_of_further; apply list_elem_of_here).
  assert (Habs : FS.stat icons_dir (fs (sample_world tree0)) = FS.ENOENT)
    by (vm_compute; reflexivity).
  split; [exact H32|]. split; [exact Habs|].
  exact (save_needs_directory _ 32 (sample_world tree0) H32 Habs).
Defined.

(** X8: a standard output that cannot encode the check mark.  When
    standard output has ASCII only, no run completes and nothing is ever
    printed.  The run gets as far as the first [print] at most: it has
    saved nothing, or it has saved the 16-pixel icon, which is then in
    the tree, and ends with [UnicodeEncodeError] from that [print]. *)
Theorem ascii_stdout_stops_at_first_print `{PIL : Imaging} (w w' : world)
    (r : result unit) :
  stdout_encoding w = ASCII ->
  main w = (r, w') ->
  r ≠ Ok tt /\
  stdout w' = stdout w /\
  exists t,
    trace w' = trace w ++ t /\
    ((saved_paths t = [] /\
      forall line e, r ≠ Raise (AtPrint line) e) \/
     (saved_paths t = [icon_path 16] /\
      r = Raise (AtPrint (created 16)) FS.UnicodeEncodeError /\
      exists im,
        size im = (16, 16) /\
        FS.file_at (FS.split_path (icon_path 16)) (fs w')
        = Some (encode_png im))).
Proof.
  intros Henc Hrun. pose proof (main_outcome w) as H. rewrite Hrun in H.
  apply outcome_inv in H as [(e0 & _ & -> & ->)|[(n & e0 & _ & _ & -> & ->)|
    (n & base & d & Hm & Hl & Hd &
     [(B & _ & _)|(pre & s & k & rest & Ho & Hpre & Hs & -> & ->)])]].
  - split_and!; [done|done|]. exists []. rewrite app_nil_r.
    split; [done|]. by left.
  - split_and!; [done|done|]. exists [EMakedirs "public/icons"].
    split; [done|]. by left.
  - pose proof (first_stop_None _ _ _ _ B 16 (list_elem_of_here _ _)) as C.
    apply check_None in C as (_ & _ & _ & C).
    by rewrite Henc, created_not_ascii in C.
  - destruct pre as [|x pre].
    2:{ pose proof (Hpre x (list_elem_of_here _ _)) as C.
        apply check_None in C as (_ & _ & _ & C).
        by rewrite Henc, created_not_ascii in C. }
    injection Ho as <- _.
    assert (16 ∈ all_sizes) as H16 by apply list_elem_of_here.
    split_and!; [by destruct k| |].
    { rewrite halt_stdout. unfold after, ready, log, set_fs.
      cbn [stdout map]. apply app_nil_r. }
    eexists. split.
    { rewrite halt_trace, after_trace. cbn [flat_map].
      rewrite app_nil_r, <- app_assoc. reflexivity. }
    rewrite !saved_paths_app.
    destruct k; cbn [raised]; [left; split; done..|].
    right. split_and!; [done|done|].
    exists (icon base 16). split.
    + apply resize_size; done.
    + rewrite halt_tree by done. cbn [foldl].
      rewrite (file_at_icon n d _ 16 Hd H16).
      unfold store. by rewrite lookup_insert_eq.
Qed.

Lemma ascii_stdout_stops_at_first_print_witness :
  stdout_encoding (ascii_world tree0) = ASCII /\
  main (ascii_world tree0)
  = (Raise (AtPrint (created 16)) FS.UnicodeEncodeError,
     (main (ascii_world tree0)).2) /\
  Raise (AtPrint (created 16)) FS.UnicodeEncodeError ≠ @Ok unit tt /\
  stdout (main (ascii_world tree0)).2 = stdout (ascii_world tree0) /\
  exists t,
    trace (main (ascii_world tree0)).2 = trace (ascii_world tree0) ++ t /\
    ((saved_paths t = [] /\
      forall line e,
        @Raise unit (AtPrint (created 16)) FS.UnicodeEncodeError
        ≠ Raise (AtPrint line) e) \/
     (saved_paths t = [icon_path 16] /\
      @Raise unit (AtPrint (created 16)) FS.UnicodeEncodeError
      = Raise (AtPrint (created 16)) FS.UnicodeEncodeError /\
      exists im : sample_image,
        fst im = (16, 16) /\
        FS.file_at (FS.split_path (icon_path 16))
          (fs (main (ascii_world tree0)).2)
        = Some (sample_encode im))).
Proof.
  assert (Henc : stdout_encoding (ascii_world tree0) = ASCII) by reflexivity.
  assert (Hrun : main (ascii_world tree0)
                 = (Raise (AtPrint (created 16)) FS.UnicodeEncodeError,
                    (main (ascii_world tree0)).2))
    by (apply run_result; vm_compute; reflexivity).
  split; [exact Henc|]. split; [exact Hrun|].
  exact (ascii_stdout_stops_at_first_print (ascii_world tree0) _ _ Henc Hrun).
Defined.

(** X9: saves and confirmations of every run.  Whatever the outcome, the
    paths a run has saved to are a prefix of the five icon paths in the
    order 16, 32, 48, 128, 64, and the lines it has printed are a prefix
    of the five confirmations in that order.  There are as many lines as
    saves, or one line less; one less only when the run ended with an
    exception from [print]. *)
Theorem saves_and_confirmations_are_prefixes `{PIL : Imaging} (w w' : world)
    (r : result unit) :
  main w = (r, w') ->
  exists t lines,
    trace w' = trace w ++ t /\
    stdout w' = stdout w ++ lines /\
    saved_paths t `prefix_of` map icon_path [16; 32; 48; 128; 64] /\
    lines `prefix_of` map created [16; 32; 48; 128; 64] /\
    (length (saved_paths t) = length lines \/
     (length (saved_paths t) = S (length lines) /\
      exists line, r = Raise (AtPrint line) FS.UnicodeEncodeError)).
Proof.
  intros Hrun. pose proof (main_outcome w) as H. rewrite Hrun in H.
  apply outcome_inv in H as [(e0 & _ & -> & ->)|[(n & e0 & _ & _ & -> & ->)|
    (n & base & d & Hm & Hl & Hd &
     [(B & -> & ->)|(pre & s & k & rest & Ho & Hpre & Hs & -> & ->)])]].
  - exists [], []. rewrite !app_nil_r.
    split_and!; [done|done|apply prefix_nil|apply prefix_nil|by left].
  - exists [EMakedirs "public/icons"], []. rewrite app_nil_r.
    split_and!; [done|done|apply prefix_nil|apply prefix_nil|by left].
  - exists ([EMakedirs "public/icons"; EOpen base_path]
            ++ flat_map (step_events base) order), (map created order).
    rewrite saved_paths_app, saved_paths_steps, saved_paths_ready.
    split_and!; [apply after_trace|done|done|done|].
    left. cbn [app]. by rewrite !length_map.
  - exists (([EMakedirs "public/icons"; EOpen base_path]
             ++ flat_map (step_events base) pre)
            ++ match k with
               | NoPixels => []
               | NameTaken | NoEncoder => [EResize base (s, s) LANCZOS]
               | NoGlyph => [EResize base (s, s) LANCZOS;
                             ESave (icon_path s) (icon base s)]
               end), (map created pre).
    rewrite !saved_paths_app, saved_paths_steps, saved_paths_ready,
      saved_paths_halt.
    change (map icon_path [16; 32; 48; 128; 64]) with (map icon_path order).
    change (map created [16; 32; 48; 128; 64]) with (map created order).
    rewrite Ho, !map_app. cbn [map app].
    split_and!.
    + rewrite halt_trace, after_trace. by rewrite <- !app_assoc.
    + by rewrite halt_stdout.
    + apply prefix_app.
      destruct k; [apply prefix_nil..|apply prefix_cons, prefix_nil].
    + by apply prefix_app_r.
    + rewrite !length_app, !length_map.
      destruct k; cbn [length raised]; [left; lia..|].
      right. split; [lia|by eexists].
Qed.

Lemma saves_and_confirmations_are_prefixes_witness :
  main (ascii_world tree0)
  = (Raise (AtPrint (created 16)) FS.UnicodeEncodeError,
     (main (ascii_world tree0)).2) /\
  exists t lines,
    trace (main (ascii_world tree0)).2 = trace (ascii_world tree0) ++ t /\
    stdout (main (ascii_world tree0)).2
    = stdout (ascii_world tree0) ++ lines /\
    saved_paths t `prefix_of` map icon_path [16; 32; 48; 128; 64] /\
    lines `prefix_of` map created [16; 32; 48; 128; 64] /\
    (length (saved_paths t) = length lines \/
     (length (saved_paths t) = S (length lines) /\
      exists line,
        @Raise unit (AtPrint (created 16)) FS.UnicodeEncodeError
        = Raise (AtPrint line) FS.UnicodeEncodeError)).
Proof.
  assert (Hrun : main (ascii_world tree0)
                 = (Raise (AtPrint (created 16)) FS.UnicodeEncodeError,
                    (main (ascii_world tree0)).2))
    by (apply run_result; vm_compute; reflexivity).
  split; [exact Hrun|].
  exact (saves_and_confirmations_are_prefixes (ascii_world tree0) _ _ Hrun).
Defined.

(** X10: a save that the encoder refuses.  When a run ends with [OSError]
    from a save, the path is that of one of the five icons; an icon that
    was at that path before the run is now an empty file, and when there
    was none there is none. *)
Theorem refused_save_empties_icon `{PIL : Imaging} (w w' : world)
    (p : string) :
  main w = (Raise (AtSave p) FS.OSError, w') ->
  exists s,
    s ∈ all_sizes /\ p = icon_path s /\
    FS.file_at (FS.split_path (icon_path s)) (fs w')
    = match FS.file_at (FS.split_path (icon_path s)) (fs w) with
      | Some _ => Some []
      | None => None
      end.
Proof.
  intros Hrun. pose proof (main_outcome w) as H. rewrite Hrun in H.
  apply outcome_inv in H as [(e0 & _ & Hr & _)|[(n & e0 & _ & _ & Hr & _)|
    (n & base & d & Hm & Hl & Hd &
     [(_ & Hr & _)|(pre & s & k & rest & Ho & _ & _ & Hr & ->)])]];
    [discriminate Hr..|].
  destruct k; cbn [raised] in Hr; try discriminate Hr. injection Hr as ->.
  pose proof (stop_known pre s rest Ho) as Hk.
  exists s. split_and!; [done|done|].
  rewrite halt_tree by done.
  rewrite (file_at_icon n d _ s Hd Hk).
  rewrite <- (makedirs_file_at _ _ _ _ _ Hm).
  rewrite (file_at_icon_before n d s Hd Hk).
  unfold emptied. rewrite (stopped_lookup base d pre s rest Ho).
  destruct (d !! icon_name s) as [[bs|es]|] eqn:E.
  - by rewrite lookup_insert_eq.
  - by rewrite (stopped_lookup base d pre s rest Ho), E.
  - by rewrite (stopped_lookup base d pre s rest Ho), E.
Qed.

Lemma refused_save_empties_icon_witness :
  main (sample_world tree_cmyk)
  = (Raise (AtSave "public/icons/icon-16.png") FS.OSError,
     (main (sample_world tree_cmyk)).2) /\
  exists s,
    s ∈ all_sizes /\ "public/icons/icon-16.png" = icon_path s /\
    FS.file_at (FS.split_path (icon_path s))
      (fs (main (sample_world tree_cmyk)).2)
    = match FS.file_at (FS.split_path (icon_path s))
              (fs (sample_world tree_cmyk)) with
      | Some _ => Some []
      | None => None
      end.
Proof.
  assert (Hrun : main (sample_world tree_cmyk)
                 = (Raise (AtSave "public/icons/icon-16.png") FS.OSError,
                    (main (sample_world tree_cmyk)).2))
    by (apply run_result; vm_compute; reflexivity).
  split; [exact Hrun|].
  exact (refused_save_empties_icon (sample_world tree_cmyk) _ _ Hrun).
Defined.

(** The three runs above, evaluated: with an ASCII standard output the
    16-pixel icon is saved and nothing is printed; with pixel data that
    does not load nothing is saved. *)
Example ascii_run :
  (main (ascii_world tree0)).1
  = Raise (AtPrint "✓ Created public/icons/icon-16.png")
      FS.UnicodeEncodeError /\
  saved_paths (trace (main (ascii_world tree0)).2)
  = ["public/icons/icon-16.png"] /\
  stdout (main (ascii_world tree0)).2 = [].
Proof. by vm_compute. Qed.

Example damaged_run :
  (main (sample_world tree_damaged)).1
  = Raise (AtResize (16, 16)) FS.OSError /\
  saved_paths (trace (main (sample_world tree_damaged)).2) = [] /\
  FS.dir_at icons_dir (fs (main (sample_world tree_damaged)).2) = Some ∅.
Proof. by vm_compute. Qed.
